(** * azcaptchaapi: a shallow embedding of the AZCaptcha client

    The development follows [azcaptchaapi/__init__.py]: the exception
    classes, the two decorators that rewrite exceptions, the
    [AZCaptchaApi] client and the [Captcha] ticket.  Library functions
    the module calls ([str.split], [html.unescape], [float]) are embedded
    after their CPython 3 implementation (the branch the module takes
    from Python 3.5 on); the collaborators outside the process (the HTTP
    transport, the clock, the file system, [imghdr], the tables of named
    references and of Unicode characters) and the interpreter's limit
    on the digits of a decimal string are the variables of the sections
    below. *)

From Stdlib Require Import ZArith NArith List String Ascii Bool Lia.
From Stdlib Require Import DecimalString.
From Stdlib Require Import Floats.SpecFloat.
From stdpp Require Import gmap.
Import ListNotations.

Set Default Proof Using "Type".
Local Open Scope N_scope.
Local Open Scope list_scope.

(* ===================================================================== *)
(** * Text                                                                *)
(* ===================================================================== *)

(** A Python 3 [str] is a sequence of Unicode code points.  Numeric
    character references decoded by [html.unescape] reach code points
    above 255, so a character is a number, not an 8-bit [ascii]. *)
Abbreviation char := N.
Abbreviation str := (list N).

(** [u "abc"] is the [str] of an ASCII literal of the source. *)
Definition u (s : string) : str :=
  List.map N_of_ascii (list_ascii_of_string s).

(** [str(n)] for a natural number: its decimal digits. *)
Definition str_of_N (n : N) : str :=
  u (NilZero.string_of_uint (N.to_uint n)).

(** The one-character literals the source and the libraries test for. *)
Definition ch (a : ascii) : char := N_of_ascii a.

(** [c in s] for a one-character [c]. *)
Definition contains (c : char) (s : str) : bool :=
  existsb (N.eqb c) s.

(** [s.split(sep)] for a one-character separator: every occurrence
    separates, so the result has one more part than [s] has separators
    and is never empty. *)
Fixpoint split (sep : char) (s : str) : list str :=
  match s with
  | [] => [[]]
  | c :: s' =>
      if c =? sep then [] :: split sep s'
      else match split sep s' with
           | p :: ps => (c :: p) :: ps
           | [] => [[c]]
           end
  end.

(** Longest prefix whose characters satisfy [p], and the rest. *)
Fixpoint span (p : char -> bool) (s : str) : str * str :=
  match s with
  | [] => ([], [])
  | c :: s' =>
      if p c then let '(a, b) := span p s' in (c :: a, b)
      else ([], s)
  end.

(** The same, stopping after at most [n] characters (a regex [{1,n}]). *)
Fixpoint span_upto (n : nat) (p : char -> bool) (s : str) : str * str :=
  match n, s with
  | S n', c :: s' =>
      if p c then let '(a, b) := span_upto n' p s' in (c :: a, b)
      else ([], s)
  | _, _ => ([], s)
  end.

Definition is_digit (c : char) : bool := (48 <=? c) && (c <=? 57).

Definition is_hexdigit (c : char) : bool :=
  is_digit c || ((97 <=? c) && (c <=? 102)) || ((65 <=? c) && (c <=? 70)).

(** Value of a digit in bases up to 16. *)
Definition digit_value (c : char) : N :=
  if is_digit c then c - 48
  else if (97 <=? c) && (c <=? 102) then c - 87
  else c - 55.

(** The number a string of digits of base [base] denotes. *)
Definition int_of_digits (base : N) (s : str) : N :=
  fold_left (fun acc c => acc * base + digit_value c) s 0.

(* ===================================================================== *)
(** * Exceptions                                                          *)
(* ===================================================================== *)

(** The classes the module names in an [except] clause or hands to
    [_rewrite_to_format_err]. *)
Inductive exc_class :=
| requests_RequestException
| builtins_ValueError
| builtins_IndexError.

#[global] Instance exc_class_eq_dec : EqDecision exc_class.
Proof. solve_decision. Defined.

(** The argument of an exception: a literal, or a format with one [%r]
    and the string it is applied to (kept unrendered). *)
Inductive message :=
| Literal (s : str)
| Percent_r (fmt : str) (arg : str).

(** Exceptions.  The first three are the classes of the module (all
    under [AZCaptchaApiError]); [ValueError] is the builtin; any other
    exception, raised by a library or by the world outside, is known by
    its name and by which of the classes above it is an instance of.
    Python classes inherit from several bases: in [requests],
    [InvalidURL], [InvalidSchema], [MissingSchema] and [InvalidHeader]
    derive from both [RequestException] and [ValueError]. *)
Inductive exn :=
| CommunicationError (msg : message)
| ResponseFormatError (msg : message)
| OperationFailedError (msg : message)
| ValueError (msg : message)
| PyException (name : str) (bases : list exc_class).

Definition isinstance (e : exn) (c : exc_class) : bool :=
  match e with
  | ValueError _ => bool_decide (c = builtins_ValueError)
  | PyException _ bases => bool_decide (c ∈ bases)
  | _ => false
  end.

(** Some exceptions of the libraries, by name. *)
Definition ConnectionError : exn :=
  PyException (u "requests.exceptions.ConnectionError")
              [requests_RequestException].
Definition ReadTimeout : exn :=
  PyException (u "requests.exceptions.ReadTimeout")
              [requests_RequestException].
Definition InvalidSchema : exn :=
  PyException (u "requests.exceptions.InvalidSchema")
              [requests_RequestException; builtins_ValueError].
Definition TypeError : exn := PyException (u "TypeError") [].

(** What a call gives: a value, or an exception raised. *)
Inductive result (A : Type) :=
| Return (a : A)
| Raise (e : exn).
Arguments Return {A} a.
Arguments Raise {A} e.

(* ===================================================================== *)
(** * html.unescape                                                       *)
(* ===================================================================== *)

Module Html.

(** [_invalid_charrefs] of the [html] module. *)
Definition _invalid_charrefs : list (N * N) :=
  [ (0x00, 0xfffd); (0x0d, 0x0d); (0x80, 0x20ac); (0x81, 0x81);
    (0x82, 0x201a); (0x83, 0x0192); (0x84, 0x201e); (0x85, 0x2026);
    (0x86, 0x2020); (0x87, 0x2021); (0x88, 0x02c6); (0x89, 0x2030);
    (0x8a, 0x0160); (0x8b, 0x2039); (0x8c, 0x0152); (0x8d, 0x8d);
    (0x8e, 0x017d); (0x8f, 0x8f); (0x90, 0x90); (0x91, 0x2018);
    (0x92, 0x2019); (0x93, 0x201c); (0x94, 0x201d); (0x95, 0x2022);
    (0x96, 0x2013); (0x97, 0x2014); (0x98, 0x02dc); (0x99, 0x2122);
    (0x9a, 0x0161); (0x9b, 0x203a); (0x9c, 0x0153); (0x9d, 0x9d);
    (0x9e, 0x017e); (0x9f, 0x0178) ].

(** [num in _invalid_codepoints]: the set is written as its ranges. *)
Definition _invalid_codepoints (num : N) : bool :=
  ((0x1 <=? num) && (num <=? 0x8))
  || ((0xe <=? num) && (num <=? 0x1f))
  || ((0x7f <=? num) && (num <=? 0x9f))
  || ((0xfdd0 <=? num) && (num <=? 0xfdef))
  || (num =? 0xb)
  || ((0xfffe <=? N.land num 0xffff) && (num <=? 0x10ffff)).

Fixpoint assoc (k : N) (l : list (N * N)) : option N :=
  match l with
  | [] => None
  | (k', v) :: l' => if k =? k' then Some v else assoc k l'
  end.

(** [s.rstrip(';')]. *)
Definition rstrip_semicolon (s : str) : str :=
  rev (snd (span (N.eqb (ch ";")) (rev s))).

(** The replacement of a numeric reference with value [num]. *)
Definition numeric_charref (num : N) : str :=
  match assoc num _invalid_charrefs with
  | Some c => [c]
  | None =>
      if ((0xD800 <=? num) && (num <=? 0xDFFF)) || (0x10FFFF <? num)
      then [0xFFFD]
      else if _invalid_codepoints num then []
      else [num]
  end.

(** The class [[^\t\n\f <&#;]] of the third alternative of [_charref]. *)
Definition name_char (c : char) : bool :=
  negb ((c =? 9) || (c =? 10) || (c =? 12) || (c =? ch " ")
        || (c =? ch "<") || (c =? ch "&") || (c =? ch "#")
        || (c =? ch ";")).

(** An optional [;] at the head of [rest]. *)
Definition opt_semicolon (rest : str) : str :=
  match rest with
  | c :: _ => if c =? ch ";" then [c] else []
  | [] => []
  end.

(** [_charref] matched right after an ampersand: the text of group 1, or
    [None] when no alternative matches.  The alternatives are
    [#[0-9]+;?], [#[xX][0-9a-fA-F]+;?] and [[^\t\n\f <&#;]{1,32};?]; the
    first two need a leading [#], which the third excludes. *)
Definition match_charref (s : str) : option str :=
  match s with
  | [] => None
  | c :: t =>
      if c =? ch "#" then
        match span is_digit t with
        | (d :: ds, r) => Some (c :: (d :: ds) ++ opt_semicolon r)
        | ([], _) =>
            match t with
            | x :: t' =>
                if (x =? ch "x") || (x =? ch "X") then
                  match span is_hexdigit t' with
                  | (h :: hs, r) => Some (c :: x :: (h :: hs) ++ opt_semicolon r)
                  | ([], _) => None
                  end
                else None
            | [] => None
            end
        end
      else
        match span_upto 32 name_char s with
        | (n :: ns, r) => Some ((n :: ns) ++ opt_semicolon r)
        | ([], _) => None
        end
  end.

Section Unescape.

(** [html.entities.html5], the table of named references. *)
Variable _html5 : gmap str str.

(** [sys.get_int_max_str_digits()]: the longest decimal string [int]
    converts, 4300 unless set otherwise; 0 when there is no limit, as in
    the interpreters that came before the limit. *)
Variable int_max_str_digits : N.

(** [int(s)] on a string of decimal digits.  A string of more than 640
    digits is held against the limit, its leading zeros counted, and is
    a [ValueError] when it is longer. *)
Definition int (s : str) : result N :=
  let digits := N.of_nat (length s) in
  if (640 <? digits) && (0 <? int_max_str_digits)
     && (int_max_str_digits <? digits)
  then Raise (ValueError (Literal (
         u "Exceeds the limit (" ++ str_of_N int_max_str_digits
         ++ u " digits) for integer string conversion: value has "
         ++ str_of_N digits
         ++ u " digits; use sys.set_int_max_str_digits() to increase the limit")))
  else Return (int_of_digits 10 s).

(** The loop [for x in range(len(s)-1, 1, -1)] of [_replace_charref],
    entered at [x]. *)
Fixpoint longest_name (x : nat) (s : str) : option str :=
  match x with
  | O => None
  | S x' =>
      if (x <? 2)%nat then None
      else match _html5 !! take x s with
           | Some v => Some (v ++ drop x s)
           | None => longest_name x' s
           end
  end.

(** [_replace_charref], on the text of group 1.  A reference in base
    16 is read by [int(s, 16)], which no limit applies to. *)
Definition _replace_charref (s : str) : result str :=
  match s with
  | c :: x :: t =>
      if c =? ch "#" then
        if (x =? ch "x") || (x =? ch "X")
        then Return (numeric_charref (int_of_digits 16 (rstrip_semicolon t)))
        else match int (rstrip_semicolon (x :: t)) with
             | Return num => Return (numeric_charref num)
             | Raise e => Raise e
             end
      else
        match _html5 !! s with
        | Some v => Return v
        | None =>
            match longest_name (length s - 1) s with
            | Some r => Return r
            | None => Return (ch "&" :: s)
            end
        end
  | _ =>
      match _html5 !! s with
      | Some v => Return v
      | None => Return (ch "&" :: s)
      end
  end.

(** The text [pre] followed by the text [r] gives, if it gives one. *)
Definition followed_by (pre : str) (r : result str) : result str :=
  match r with
  | Return s => Return (pre ++ s)
  | Raise e => Raise e
  end.

(** [_charref.sub(_replace_charref, s)]: a left-to-right scan; [skip]
    counts the characters of the current match still to be passed.  The
    first replacement that raises ends the scan. *)
Fixpoint sub_charref (skip : nat) (s : str) : result str :=
  match s with
  | [] => Return []
  | c :: s' =>
      match skip with
      | S k => sub_charref k s'
      | O =>
          if c =? ch "&" then
            match match_charref s' with
            | Some g =>
                match _replace_charref g with
                | Return r => followed_by r (sub_charref (length g) s')
                | Raise e => Raise e
                end
            | None => followed_by [c] (sub_charref 0 s')
            end
          else followed_by [c] (sub_charref 0 s')
      end
  end.

Definition unescape (s : str) : result str :=
  if negb (contains (ch "&") s) then Return s else sub_charref 0 s.

End Unescape.

End Html.

(* ===================================================================== *)
(** * float(str)                                                          *)
(* ===================================================================== *)

Module Float.

(** A Python [float] is an IEEE 754 binary64 value. *)
Definition float := spec_float.
Definition prec : Z := 53.
Definition emax : Z := 1024.

(** The binary64 nearest to [(-1)^neg * m * 10^e], ties to even: what
    [_Py_dg_strtod] returns for the digits [m] and the exponent [e].
    Overflow gives an infinity and underflow a zero or a subnormal, as
    [PyOS_string_to_double] does when no overflow exception is asked. *)
Definition of_decimal (neg : bool) (m : N) (e : Z) : float :=
  match m with
  | N0 => S754_zero neg
  | Npos p =>
      match e with
      | Z0 => binary_round prec emax neg p 0
      | Zpos k => binary_round prec emax neg (p * Pos.pow 10 k) 0
      | Zneg k =>
          SFdiv prec emax (S754_finite neg p 0)
                (S754_finite false (Pos.pow 10 k) 0)
      end
  end.

(** [Py_ISSPACE] and [Py_TOLOWER] on ASCII. *)
Definition is_space (c : char) : bool :=
  ((9 <=? c) && (c <=? 13)) || (c =? ch " ").

Definition tolower (c : char) : char :=
  if (65 <=? c) && (c <=? 90) then c + 32 else c.

(** An optional sign: whether it is [-], and the rest. *)
Definition parse_sign (s : str) : bool * str :=
  match s with
  | c :: t =>
      if c =? ch "-" then (true, t)
      else if c =? ch "+" then (false, t)
      else (false, s)
  | [] => (false, s)
  end.

(** The exponent part of [_Py_dg_strtod]: [e] or [E], an optional sign
    and at least one digit; without a digit nothing is consumed. *)
Definition parse_exponent (s : str) : Z * str :=
  match s with
  | c :: t =>
      if (c =? ch "e") || (c =? ch "E") then
        let '(eneg, t1) := parse_sign t in
        match span is_digit t1 with
        | ([], _) => (0%Z, s)
        | (ds, t2) =>
            let a := Z.of_N (int_of_digits 10 ds) in
            ((if eneg then - a else a)%Z, t2)
        end
      else (0%Z, s)
  | [] => (0%Z, s)
  end.

(** [_Py_dg_strtod]: the value and the unparsed rest, or [None] when no
    number starts the string.  The decimal point is consumed whenever it
    follows the integer digits; a number needs one digit before or after
    it. *)
Definition _Py_dg_strtod (s : str) : option (float * str) :=
  let '(neg, s1) := parse_sign s in
  let '(ip, s2) := span is_digit s1 in
  let '(fp, s3) :=
    match s2 with
    | c :: t => if c =? ch "." then span is_digit t else ([], s2)
    | [] => ([], s2)
    end in
  match ip ++ fp with
  | [] => None
  | ds =>
      let '(e, s4) := parse_exponent s3 in
      Some (of_decimal neg (int_of_digits 10 ds)
                       (e - Z.of_nat (length fp)), s4)
  end.

(** [case_insensitive_match s t]: the rest of [s] after the lower-case
    word [t], compared through [tolower]. *)
Fixpoint case_insensitive_match (s t : str) : option str :=
  match t with
  | [] => Some s
  | tc :: t' =>
      match s with
      | c :: s' =>
          if tolower c =? tc then case_insensitive_match s' t' else None
      | [] => None
      end
  end.

Definition _Py_parse_inf_or_nan (s : str) : option (float * str) :=
  let '(neg, s1) := parse_sign s in
  match case_insensitive_match s1 (u "inf") with
  | Some s2 =>
      match case_insensitive_match s2 (u "inity") with
      | Some s3 => Some (S754_infinity neg, s3)
      | None => Some (S754_infinity neg, s2)
      end
  | None =>
      match case_insensitive_match s1 (u "nan") with
      | Some s2 => Some (S754_nan, s2)
      | None => None
      end
  end.

(** [_PyOS_ascii_strtod]: a number, else an infinity or a NaN. *)
Definition PyOS_string_to_double (s : str) : option (float * str) :=
  match _Py_dg_strtod s with
  | Some r => Some r
  | None => _Py_parse_inf_or_nan s
  end.

Definition lstrip (s : str) : str := snd (span is_space s).
Definition rstrip (s : str) : str := rev (lstrip (rev s)).

(** [float_from_string_inner]: white space is stripped on both sides and
    the number must be the whole of what is left. *)
Definition float_from_string_inner (s : str) : option float :=
  match rstrip (lstrip s) with
  | [] => None
  | s' =>
      match PyOS_string_to_double s' with
      | Some (x, []) => Some x
      | _ => None
      end
  end.

(** The loop of [_Py_string_to_number_with_underscores]: an underscore
    stands between two digits; [prev] is the character before [s].  The
    C loop ends at a NUL character, which is then an error. *)
Fixpoint remove_underscores (prev : char) (s : str) : option str :=
  match s with
  | [] => if prev =? ch "_" then None else Some []
  | c :: s' =>
      if c =? 0 then None
      else if c =? ch "_" then
        if is_digit prev then remove_underscores c s' else None
      else if (prev =? ch "_") && negb (is_digit c) then None
      else option_map (cons c) (remove_underscores c s')
  end.

(** The characters a C string function sees: those before the first NUL. *)
Definition c_string (s : str) : str :=
  fst (span (fun c => negb (c =? 0)) s).

Definition _Py_string_to_number_with_underscores (s : str) : option float :=
  if negb (contains (ch "_") (c_string s)) then float_from_string_inner s
  else match remove_underscores 0 s with
       | Some dup => float_from_string_inner dup
       | None => None
       end.

Section Unicode.

(** The Unicode character database, asked about characters from 127
    on only: [Py_UNICODE_ISSPACE] and [Py_UNICODE_TODECIMAL]. *)
Variable unicode_isspace : char -> bool.
Variable unicode_todecimal : char -> option N.

(** The loop of [_PyUnicode_TransformDecimalAndSpaceToASCII]: it stops
    with a question mark at the first character that is neither
    white space nor a decimal digit. *)
Fixpoint transform (s : str) : str :=
  match s with
  | [] => []
  | c :: s' =>
      if c <? 127 then c :: transform s'
      else if unicode_isspace c then ch " " :: transform s'
      else match unicode_todecimal c with
           | Some d => (ch "0" + d) :: transform s'
           | None => [ch "?"]
           end
  end.

Definition _PyUnicode_TransformDecimalAndSpaceToASCII (s : str) : str :=
  if forallb (fun c => c <? 128) s then s else transform s.

(** [PyFloat_FromString] on a [str]; [None] is a [ValueError]. *)
Definition PyFloat_FromString (s : str) : option float :=
  _Py_string_to_number_with_underscores
    (_PyUnicode_TransformDecimalAndSpaceToASCII s).

End Unicode.

End Float.

(* ===================================================================== *)
(** * Computations: state and exceptions                                  *)
(* ===================================================================== *)

(** A computation over a state [S]: it returns or raises, and the state
    it leaves is kept in both cases. *)
Definition M (S A : Type) : Type := S -> result A * S.

Definition ret {S A} (a : A) : M S A := fun s => (Return a, s).
Definition raise {S A} (e : exn) : M S A := fun s => (Raise e, s).
Definition bind {S A B} (m : M S A) (k : A -> M S B) : M S B :=
  fun s =>
    match m s with
    | (Return a, s') => k a s'
    | (Raise e, s') => (Raise e, s')
    end.
Definition of_result {S A} (r : result A) : M S A := fun s => (r, s).

Declare Scope py_scope.
Delimit Scope py_scope with py.
Notation "x <- c ;; k" := (bind c (fun x => k))
  (at level 100, c at next level, right associativity) : py_scope.
Notation "c ;;; k" := (bind c (fun _ => k))
  (at level 100, right associativity) : py_scope.
Local Open Scope py_scope.

(** ** The decorators *)

(** [_rewrite_http_to_com_err]: "Rewrites HTTP exceptions from
    [requests] to [CommunicationError]s." *)
Definition _rewrite_http_to_com_err {S A} (func : M S A) : M S A :=
  fun s =>
    match func s with
    | (Return a, s') => (Return a, s')
    | (Raise e, s') =>
        if isinstance e requests_RequestException
        then (Raise (CommunicationError (Literal (u
               "an error occurred while communicating with the AZCaptcha API"))), s')
        else (Raise e, s')
    end.

(** [_rewrite_to_format_err], given exception types: "Rewrites arbitrary
    exception types to [ResponseFormatError]s." *)
Definition _rewrite_to_format_err (exception_types : list exc_class)
    {S A} (func : M S A) : M S A :=
  fun s =>
    match func s with
    | (Return a, s') => (Return a, s')
    | (Raise e, s') =>
        if existsb (isinstance e) exception_types
        then (Raise (ResponseFormatError (Literal (u
               "unexpected response format"))), s')
        else (Raise e, s')
    end.

(** ** Builtins that raise *)

(** [a, b = l]. *)
Definition unpack2 {S} (l : list str) : M S (str * str) :=
  match l with
  | [a; b] => ret (a, b)
  | [] => raise (ValueError (Literal (u
            "not enough values to unpack (expected 2, got 0)")))
  | [_] => raise (ValueError (Literal (u
            "not enough values to unpack (expected 2, got 1)")))
  | _ => raise (ValueError (Literal (u
            "too many values to unpack (expected 2)")))
  end.

(* ===================================================================== *)
(** * The world outside: HTTP, the clock, files                           *)
(* ===================================================================== *)

Abbreviation bytes := (list Byte.byte).

Inductive http_method := GET | POST.

(** What [requests.get(url, params)] and
    [requests.post(url, data, files=...)] send. *)
Record request := {
  rq_method : http_method;
  rq_url : str;
  rq_data : gmap str str;
  rq_files : gmap str (str * bytes)
}.

Record Response := { text : str }.

(** What the process did to the world, in order: the requests it sent
    and the times it slept. *)
Inductive event :=
| Net (rq : request)
| Sleep (seconds : Float.float).

Abbreviation world := (list event).

Definition is_net (ev : event) : bool :=
  match ev with Net _ => true | Sleep _ => false end.
Definition is_sleep (ev : event) : bool :=
  match ev with Net _ => false | Sleep _ => true end.

(** Number of network calls, and of sleeps, in a trace. *)
Definition net_calls (w : world) : nat := length (filter is_net w).
Definition sleeps (w : world) : nat := length (filter is_sleep w).

(** A transport answers a request, given all that happened before, with
    a response or with an exception. *)
Abbreviation transport := (world -> request -> result Response).

(** A call-counting stub: the [n]-th network call gets the [n]-th entry
    of a script, and a refused connection once the script is over. *)
Definition stub (script : list (result Response)) : transport :=
  fun w _ => nth (net_calls w) script (Raise ConnectionError).

Definition body (s : string) : result Response := Return {| text := u s |}.

(* ===================================================================== *)
(** * The client                                                          *)
(* ===================================================================== *)

Section Client.

(** The network behind [requests]. *)
Variable net : transport.

(** [requests.get(url, params)]. *)
Definition requests_get (url : str) (params : gmap str str)
    : M world Response :=
  fun w =>
    let rq := {| rq_method := GET; rq_url := url;
                 rq_data := params; rq_files := ∅ |} in
    (net w rq, w ++ [Net rq]).

(** [requests.post(url, data, files=files)]. *)
Definition requests_post (url : str) (data : gmap str str)
    (files : gmap str (str * bytes)) : M world Response :=
  fun w =>
    let rq := {| rq_method := POST; rq_url := url;
                 rq_data := data; rq_files := files |} in
    (net w rq, w ++ [Net rq]).

(** ** class AZCaptchaApi *)

Record AZCaptchaApi := { api_key : str }.

Definition BASE_URL : str := u "http://azcaptcha.com".
Definition REQ_URL : str := BASE_URL ++ u "/in.php".
Definition RES_URL : str := BASE_URL ++ u "/res.php".
Definition LOAD_URL : str := BASE_URL ++ u "/load.php".

(** [get]: "Sends a HTTP GET, for low-level API interaction."  The key
    is stored in the dictionary it is given, which is the one sent. *)
Definition get (self : AZCaptchaApi) (url : str) (params : gmap str str)
    : M world Response :=
  let params := <[u "key" := api_key self]> params in
  requests_get url params.

(** [post]: "Sends a HTTP POST, for low-level API interaction." *)
Definition post (self : AZCaptchaApi) (url : str) (data : gmap str str)
    (files : gmap str (str * bytes)) : M world Response :=
  let data := <[u "key" := api_key self]> data in
  requests_post url data files.

(** The Unicode tables [float] consults. *)
Variable unicode_isspace : char -> bool.
Variable unicode_todecimal : char -> option N.

(** [float(s)]. *)
Definition float {S} (s : str) : M S Float.float :=
  match Float.PyFloat_FromString unicode_isspace unicode_todecimal s with
  | Some x => ret x
  | None => raise (ValueError (Percent_r (u
              "could not convert string to float: %r") s))
  end.

(** [get_balance]: "Obtains the balance on our account, in dollars." *)
Definition get_balance (self : AZCaptchaApi) : M world Float.float :=
  _rewrite_http_to_com_err
    (_rewrite_to_format_err [builtins_ValueError]
      (resp <- get self RES_URL {[ u "action" := u "getbalance" ]} ;;
       float (text resp))).

(** The [date] of [get_stats]: a [str], or an object whose
    [isoformat()] returns or raises. *)
Inductive date_arg :=
| DateStr (s : str)
| DateObject (isoformat : result str).

(** [get_stats]: "Obtains statistics about our account, as XML." *)
Definition get_stats (self : AZCaptchaApi) (date : date_arg)
    : M world str :=
  _rewrite_http_to_com_err
    (d <- match date with
          | DateStr s => ret s
          | DateObject isoformat => of_result isoformat
          end ;;
     resp <- get self RES_URL
               (<[ u "date" := d ]> {[ u "action" := u "getstats" ]}) ;;
     ret (text resp)).

(** [get_load]: "Obtains load statistics of the server." *)
Definition get_load (self : AZCaptchaApi) : M world str :=
  _rewrite_http_to_com_err
    (resp <- get self LOAD_URL ∅ ;;
     ret (text resp)).

(** ** class Captcha *)

Record Captcha := {
  api : AZCaptchaApi;
  captcha_id : str;
  _cached_result : option str;
  _reported_bad : bool
}.

(** [Captcha.__init__]. *)
Definition Captcha_init (api : AZCaptchaApi) (captcha_id : str) : Captcha :=
  {| api := api; captcha_id := captcha_id;
     _cached_result := None; _reported_bad := false |}.

(** The [file] of [solve]: a path, or an object whose [read()] returns
    or raises. *)
Inductive file_arg :=
| FilePath (path : str)
| FileObject (read : result bytes).

(** [open(path, 'rb')] read whole, and [imghdr.what(None, h=data)]. *)
Variable open_rb_read : str -> result bytes.
Variable imghdr_what : bytes -> option str.

(** [solve]: "Queues a captcha for solving."  The file name
    ['captcha.' + file_ext] is a [TypeError] when [imghdr] knows no
    format; it is built before the request is sent. *)
Definition solve (self : AZCaptchaApi) (file : file_arg)
    (captcha_parameters : option (gmap str str)) : M world Captcha :=
  _rewrite_http_to_com_err
    (_rewrite_to_format_err [builtins_IndexError; builtins_ValueError]
      (raw_data <- match file with
                   | FilePath path => of_result (open_rb_read path)
                   | FileObject read => of_result read
                   end ;;
       let file_ext := imghdr_what raw_data in
       let data :=
         match captcha_parameters with
         | Some d => if decide (d = ∅) then {[ u "method" := u "post" ]} else d
         | None => {[ u "method" := u "post" ]}
         end in
       name <- match file_ext with
               | Some ext => ret (u "captcha." ++ ext)
               | None => raise TypeError
               end ;;
       resp <- post self REQ_URL data {[ u "file" := (name, raw_data) ]} ;;
       let text := text resp in
       if contains (ch "|") text then
         p <- unpack2 (split (ch "|") text) ;;
         let captcha_id := snd p in
         ret (Captcha_init self captcha_id)
       else
         raise (OperationFailedError (Percent_r (u "Operation failed: %r") text)))).

(** The methods of a [Captcha] run on the ticket and the world. *)
Definition in_world {A} (m : M world A) : M (Captcha * world) A :=
  fun s => let '(r, w) := m (snd s) in (r, (fst s, w)).

Definition self_ : M (Captcha * world) Captcha :=
  fun s => (Return (fst s), s).

(** [self._cached_result = v]. *)
Definition set_cached_result (v : str) : M (Captcha * world) unit :=
  fun s =>
    let c := fst s in
    (Return tt,
     ({| api := api c; captcha_id := captcha_id c;
         _cached_result := Some v; _reported_bad := _reported_bad c |},
      snd s)).

(** [html.entities.html5] and [sys.get_int_max_str_digits()]. *)
Variable _html5 : gmap str str.
Variable int_max_str_digits : N.

(** [try_get_result]: "Tries to obtain the captcha text. If the result
    is not yet available, [None] is returned." *)
Definition try_get_result : M (Captcha * world) (option str) :=
  _rewrite_http_to_com_err
    (_rewrite_to_format_err [builtins_ValueError]
      (self <- self_ ;;
       match _cached_result self with
       | Some r => ret (Some r)
       | None =>
           resp <- in_world (get (api self) RES_URL
                     (<[ u "id" := captcha_id self ]>
                        {[ u "action" := u "get" ]})) ;;
           let text := text resp in
           if contains (ch "|") text then
             decoded <- of_result
                          (Html.unescape _html5 int_max_str_digits text) ;;
             p <- unpack2 (split (ch "|") decoded) ;;
             let captcha_text := snd p in
             set_cached_result captcha_text ;;;
             ret (Some captcha_text)
           else if bool_decide
                     (text ∈ [u "CAPCHA_NOT_READY"; u "CAPTCHA_NOT_READY"])
           then ret None
           else raise (OperationFailedError
                         (Percent_r (u "Operation failed: %r") text))
       end)).

(** [time.sleep(seconds)]: whether it returns for a given length or
    what it raises (a negative length, for one, is refused). *)
Variable sleep_outcome : Float.float -> result unit.

Definition time_sleep (seconds : Float.float) : M world unit :=
  fun w =>
    match sleep_outcome seconds with
    | Return _ => (Return tt, w ++ [Sleep seconds])
    | Raise e => (Raise e, w)
    end.

(** [await_result]: "Obtains the captcha text in a blocking manner.
    Retries every [sleep_time] seconds."  The loop is [while True];
    [fuel] bounds the number of iterations, and [None] means that the
    loop was still running when the fuel ran out. *)
Fixpoint await_result (fuel : nat) (sleep_time : Float.float)
    (s : Captcha * world) : option (result str * (Captcha * world)) :=
  match fuel with
  | O => None
  | S fuel' =>
      match try_get_result s with
      | (Raise e, s') => Some (Raise e, s')
      | (Return (Some result), s') => Some (Return result, s')
      | (Return None, s') =>
          match in_world (time_sleep sleep_time) s' with
          | (Return _, s'') => await_result fuel' sleep_time s''
          | (Raise e, s'') => Some (Raise e, s'')
          end
      end
  end.

(** The default [sleep_time=1.]. *)
Definition default_sleep_time : Float.float :=
  S754_finite false 4503599627370496 (-52).

(** [report_bad]: "Reports to the server that the captcha was solved
    incorrectly." *)
Definition report_bad : M (Captcha * world) unit :=
  _rewrite_http_to_com_err
    (self <- self_ ;;
     if _cached_result self is None then
       raise (ValueError (Literal (u
         "tried reporting bad state for captcha not yet retrieved")))
     else if _reported_bad self then
       raise (ValueError (Literal (u "tried double-reporting bad captcha")))
     else
       resp <- in_world (get (api self) RES_URL
                 (<[ u "id" := captcha_id self ]>
                    {[ u "action" := u "reportbad" ]})) ;;
       if bool_decide (text resp ≠ u "OK_REPORT_RECORDED") then
         raise (ResponseFormatError (Literal (u "unexpected API response")))
       else ret tt).

End Client.

(* ===================================================================== *)
(** * Requests, stubs and tickets used in the statements                  *)
(* ===================================================================== *)

(** The request each operation sends, as its body builds it. *)
Definition balance_request (a : AZCaptchaApi) : request :=
  {| rq_method := GET; rq_url := RES_URL;
     rq_data := <[u "key" := api_key a]> {[ u "action" := u "getbalance" ]};
     rq_files := ∅ |}.

Definition stats_request (a : AZCaptchaApi) (d : str) : request :=
  {| rq_method := GET; rq_url := RES_URL;
     rq_data := <[u "key" := api_key a]>
                  (<[u "date" := d]> {[ u "action" := u "getstats" ]});
     rq_files := ∅ |}.

Definition load_request (a : AZCaptchaApi) : request :=
  {| rq_method := GET; rq_url := LOAD_URL;
     rq_data := <[u "key" := api_key a]> ∅;
     rq_files := ∅ |}.

Definition submit_request (a : AZCaptchaApi) (data : gmap str str)
    (ext : str) (raw_data : bytes) : request :=
  {| rq_method := POST; rq_url := REQ_URL;
     rq_data := <[u "key" := api_key a]> data;
     rq_files := {[ u "file" := (u "captcha." ++ ext, raw_data) ]} |}.

Definition poll_request (c : Captcha) : request :=
  {| rq_method := GET; rq_url := RES_URL;
     rq_data := <[u "key" := api_key (api c)]>
                  (<[u "id" := captcha_id c]> {[ u "action" := u "get" ]});
     rq_files := ∅ |}.

Definition report_request (c : Captcha) : request :=
  {| rq_method := GET; rq_url := RES_URL;
     rq_data := <[u "key" := api_key (api c)]>
                  (<[u "id" := captcha_id c]> {[ u "action" := u "reportbad" ]});
     rq_files := ∅ |}.

(** What [solve] reads from its [file] argument. *)
Definition file_contents (open_rb_read : str -> result bytes)
    (file : file_arg) : result bytes :=
  match file with
  | FilePath path => open_rb_read path
  | FileObject read => read
  end.

(** The value of [captcha_parameters or {'method': 'post'}]. *)
Definition form_data (captcha_parameters : option (gmap str str))
    : gmap str str :=
  match captcha_parameters with
  | Some d => if decide (d = ∅) then {[ u "method" := u "post" ]} else d
  | None => {[ u "method" := u "post" ]}
  end.

(** A ticket after its result was stored. *)
Definition resolved (c : Captcha) (r : str) : Captcha :=
  {| api := api c; captcha_id := captcha_id c;
     _cached_result := Some r; _reported_bad := _reported_bad c |}.

(** Running a computation [n] times in a row: the results, in order, and
    the last state. *)
Fixpoint run_many {S A} (n : nat) (m : M S A) (s : S) : list (result A) * S :=
  match n with
  | O => ([], s)
  | S n' =>
      let '(r, s') := m s in
      let '(rs, s'') := run_many n' m s' in
      (r :: rs, s'')
  end.

(** [k] rounds of the polling loop that found nothing: a poll, then a
    sleep. *)
Fixpoint rounds (rq : request) (t : Float.float) (k : nat) : world :=
  match k with
  | O => []
  | S k' => Net rq :: Sleep t :: rounds rq t k'
  end.

(** The two spellings of the answer "not ready". *)
Definition not_ready : list str :=
  [u "CAPCHA_NOT_READY"; u "CAPTCHA_NOT_READY"].

(** The two exceptions the decorators raise. *)
Definition format_error : exn :=
  ResponseFormatError (Literal (u "unexpected response format")).

Definition communication_error : exn :=
  CommunicationError (Literal (u
    "an error occurred while communicating with the AZCaptcha API")).

(** The poll as the specification words it: "decode HTML entities in
    the body", then "if body contains [|], split into exactly two parts;
    return and cache the second part", a split of another shape being a
    [ResponseFormatError].  [None] where these words decide nothing. *)
Definition decode_then_split (html5 : gmap str str) (limit : N) (body : str)
    : option (result str) :=
  match Html.unescape html5 limit body with
  | Return decoded =>
      if contains (ch "|") decoded then
        match split (ch "|") decoded with
        | [_; r] => Some (Return r)
        | _ => Some (Raise format_error)
        end
      else None
  | Raise _ => None
  end.

(** The binary64 value [float] gives for [12.34]. *)
Definition float_12_34 : Float.float :=
  S754_finite false 6946802425218990 (-49).


(** Objects of the examples. *)
Definition example_api : AZCaptchaApi := {| api_key := u "secret-key" |}.
Definition example_ticket : Captcha := Captcha_init example_api (u "12345").
Definition html5_amp : gmap str str := {[ u "amp;" := u "&" ]}.
Definition default_limit : N := 4300.

(** A body whose decimal reference has 4302 digits, and what [int]
    raises on it under the default limit. *)
Definition long_reference : str :=
  u "OK|&#" ++ repeat (ch "0") 4300 ++ u "65;".
Definition long_reference_error : exn :=
  ValueError (Literal (u
    "Exceeds the limit (4300 digits) for integer string conversion: value has 4302 digits; use sys.set_int_max_str_digits() to increase the limit")).
Definition no_unicode_space : char -> bool := fun _ => false.
Definition no_unicode_decimal : char -> option N := fun _ => None.
Definition png_only : bytes -> option str := fun _ => Some (u "png").
Definition no_files : str -> result bytes :=
  fun _ => Raise (PyException (u "FileNotFoundError") []).

(** A clock after [time.sleep] of CPython 3.11: the length is brought
    to nanoseconds in binary64; a NaN and a negative length are a
    [ValueError], a length beyond 2^63 nanoseconds either way an
    [OverflowError], and 2^63 itself wraps to a negative one. *)
Definition example_clock (t : Float.float) : result unit :=
  match t with
  | S754_nan =>
      Raise (ValueError (Literal (u "Invalid value NaN (not a number)")))
  | _ =>
      let d := SFmul Float.prec Float.emax t (Float.of_decimal false 1 9) in
      let bound := Float.of_decimal false 9223372036854775808 0 in
      if SFltb bound (SFabs d) then
        Raise (PyException (u "OverflowError") [])
      else if SFltb d (S754_zero false) || SFeqb d bound then
        Raise (ValueError (Literal (u "sleep length must be non-negative")))
      else Return tt
  end.

(* ===================================================================== *)
(** * Notions used in the further properties                              *)
(* ===================================================================== *)

(** A result that, if it is an exception, is not an instance of [c]. *)
Definition never_raises (c : exc_class) {A} (r : result A) : Prop :=
  match r with
  | Raise e => isinstance e c = false
  | Return _ => True
  end.

(** A request carries the credential [key]; a sleep carries nothing. *)
Definition carries_key (key : str) (ev : event) : Prop :=
  match ev with
  | Net rq => rq_data rq !! u "key" = Some key
  | Sleep _ => True
  end.

(** Number of occurrences of a character. *)
Fixpoint occurrences (c : char) (s : str) : nat :=
  match s with
  | [] => 0%nat
  | x :: s' =>
      if x =? c then S (occurrences c s') else occurrences c s'
  end.

(** A server that never has the result, an [imghdr] that knows no
    format, and a negative length of time. *)
Definition always_not_ready : transport :=
  fun _ _ => body "CAPCHA_NOT_READY".
Definition unknown_format : bytes -> option str := fun _ => None.
Definition minus_one_second : Float.float :=
  S754_finite true 4503599627370496 (-52).

(** ** Tactics *)

(** Unfolds a method of the client down to the transport call. *)
Ltac run_method :=
  unfold try_get_result, report_bad, get_balance, get_stats, get_load, solve,
    _rewrite_http_to_com_err, _rewrite_to_format_err, bind, ret, raise,
    of_result, self_, in_world, set_cached_result, get, post,
    requests_get, requests_post;
  cbn [fst snd].

(** Runs [solve] through the reading of the file and the detection of
    its format, given that both succeed. *)
Ltac solve_to_request Hf Hi :=
  unfold file_contents in Hf;
  match goal with
  | file : file_arg |- _ => destruct file
  end;
  run_method; rewrite Hf; cbn [fst snd]; rewrite Hi; cbn [fst snd].

(* ===================================================================== *)
(** * Properties                                                          *)
(* ===================================================================== *)

(** ** Text *)

Lemma contains_app c a b :
  contains c (a ++ b) = contains c a || contains c b.
Proof. unfold contains. apply existsb_app. Qed.

Lemma split_no_sep sep s :
  contains sep s = false -> split sep s = [s].
Proof.
  induction s as [|c s IH]; simpl; [reflexivity|].
  intros H. apply orb_false_iff in H as [Hc Hs].
  rewrite N.eqb_sym, Hc. rewrite (IH Hs). reflexivity.
Qed.

Lemma split_one_sep sep a b :
  contains sep a = false -> contains sep b = false ->
  split sep (a ++ sep :: b) = [a; b].
Proof.
  intros Ha Hb. induction a as [|c a IH]; simpl.
  - rewrite N.eqb_refl, (split_no_sep _ _ Hb). reflexivity.
  - simpl in Ha. apply orb_false_iff in Ha as [Hc Ha].
    rewrite N.eqb_sym, Hc, (IH Ha). reflexivity.
Qed.

Lemma unescape_no_amp html5 limit s :
  contains (ch "&") s = false -> Html.unescape html5 limit s = Return s.
Proof. intros H. unfold Html.unescape. rewrite H. reflexivity. Qed.

(** ** Polling *)

Lemma try_get_result_cached_once net html5 limit self w r :
  _cached_result self = Some r ->
  try_get_result net html5 limit (self, w) = (Return (Some r), (self, w)).
Proof. intros H. run_method. rewrite H. reflexivity. Qed.

(** C2.  A ticket whose result is cached answers every [try_get_result]
    with the cached string and leaves the ticket and the world as they
    were: [n] calls in a row return it [n] times and the trace, hence
    the number of network calls, is unchanged. *)
Theorem try_get_result_memoized net html5 limit self w r n :
  _cached_result self = Some r ->
  run_many n (try_get_result net html5 limit) (self, w)
    = (repeat (Return (Some r)) n, (self, w))
  /\ net_calls (snd (snd (run_many n (try_get_result net html5 limit) (self, w))))
     = net_calls w.
Proof.
  intros H.
  assert (E : run_many n (try_get_result net html5 limit) (self, w)
              = (repeat (Return (Some r)) n, (self, w))).
  { induction n as [|n IH]; simpl; [reflexivity|].
    rewrite (try_get_result_cached_once _ _ _ _ _ _ H), IH. reflexivity. }
  rewrite E. split; reflexivity.
Qed.

Lemma try_get_result_memoized_witness :
  run_many 3 (try_get_result (stub []) html5_amp default_limit)
           (resolved example_ticket (u "5&6"), [])
    = (repeat (Return (Some (u "5&6"))) 3,
       (resolved example_ticket (u "5&6"), []))
  /\ net_calls (snd (snd (run_many 3 (try_get_result (stub []) html5_amp default_limit)
                                   (resolved example_ticket (u "5&6"), []))))
     = net_calls [].
Proof.
  apply (try_get_result_memoized (stub []) html5_amp default_limit
           (resolved example_ticket (u "5&6")) [] (u "5&6") 3).
  reflexivity.
Defined.

(** What a poll does once the transport has answered with [resp]. *)
Lemma try_get_result_answered net html5 limit self w resp :
  _cached_result self = None ->
  net w (poll_request self) = Return resp ->
  try_get_result net html5 limit (self, w) =
    let w' := w ++ [Net (poll_request self)] in
    if contains (ch "|") (text resp) then
      match Html.unescape html5 limit (text resp) with
      | Return decoded =>
          match split (ch "|") decoded with
          | [_; r] => (Return (Some r), (resolved self r, w'))
          | _ => (Raise (ResponseFormatError
                           (Literal (u "unexpected response format"))),
                  (self, w'))
          end
      | Raise e =>
          ((if isinstance e builtins_ValueError
            then Raise (ResponseFormatError
                          (Literal (u "unexpected response format")))
            else if isinstance e requests_RequestException
            then Raise communication_error
            else Raise e), (self, w'))
      end
    else if bool_decide (text resp ∈ not_ready) then (Return None, (self, w'))
    else (Raise (OperationFailedError
                   (Percent_r (u "Operation failed: %r") (text resp))),
          (self, w')).
Proof.
  intros Hc Hn. run_method. rewrite Hc. cbn [fst snd].
  change (net w _) with (net w (poll_request self)). rewrite Hn.
  cbn [fst snd text]. destruct (contains (ch "|") (text resp)).
  - destruct (Html.unescape html5 limit (text resp)) as [decoded|e];
      cbn [fst snd existsb].
    + destruct (split (ch "|") decoded) as [|a [|b [|c l]]]; reflexivity.
    + destruct (isinstance e builtins_ValueError); cbn [orb fst snd];
        [reflexivity|].
      destruct (isinstance e requests_RequestException); reflexivity.
  - change [u "CAPCHA_NOT_READY"; u "CAPTCHA_NOT_READY"] with not_ready.
    destruct (bool_decide (text resp ∈ not_ready)); reflexivity.
Qed.

Lemma not_ready_spec (s : str) :
  s ∈ not_ready <-> s = u "CAPCHA_NOT_READY" \/ s = u "CAPTCHA_NOT_READY".
Proof.
  unfold not_ready. rewrite elem_of_cons, list_elem_of_singleton. reflexivity.
Qed.

(** C4.  A poll answered with a body without [|]: either spelling of
    "not ready" gives [None] and leaves the ticket as it was; any other
    body raises [OperationFailedError] on the raw text.  In both cases
    the poll made exactly one network call. *)
Theorem try_get_result_without_pipe net html5 limit self w body :
  _cached_result self = None ->
  contains (ch "|") body = false ->
  net w (poll_request self) = Return {| text := body |} ->
  let w' := w ++ [Net (poll_request self)] in
  (body = u "CAPCHA_NOT_READY" \/ body = u "CAPTCHA_NOT_READY" ->
   try_get_result net html5 limit (self, w) = (Return None, (self, w')))
  /\ (body <> u "CAPCHA_NOT_READY" -> body <> u "CAPTCHA_NOT_READY" ->
      try_get_result net html5 limit (self, w)
        = (Raise (OperationFailedError
                    (Percent_r (u "Operation failed: %r") body)), (self, w')))
  /\ net_calls w' = S (net_calls w).
Proof.
  intros Hc Hp Hn w'.
  pose proof (try_get_result_answered net html5 limit self w _ Hc Hn) as E.
  cbn [text] in E. rewrite Hp in E. fold w' in E.
  split; [|split].
  - intros Hs. rewrite E, bool_decide_eq_true_2; [reflexivity|].
    apply not_ready_spec, Hs.
  - intros H1 H2. rewrite E, bool_decide_eq_false_2; [reflexivity|].
    rewrite not_ready_spec. intros [H | H]; contradiction.
  - unfold w', net_calls. rewrite filter_app, length_app. simpl. lia.
Qed.

Lemma try_get_result_without_pipe_witness :
  try_get_result (stub [body "CAPCHA_NOT_READY"]) html5_amp default_limit (example_ticket, [])
    = (Return None, (example_ticket, [Net (poll_request example_ticket)]))
  /\ try_get_result (stub [body "CAPTCHA_NOT_READY"]) html5_amp default_limit (example_ticket, [])
    = (Return None, (example_ticket, [Net (poll_request example_ticket)]))
  /\ try_get_result (stub [body "ERROR_CAPTCHA_UNSOLVABLE"]) html5_amp default_limit
                    (example_ticket, [])
    = (Raise (OperationFailedError
                (Percent_r (u "Operation failed: %r")
                           (u "ERROR_CAPTCHA_UNSOLVABLE"))),
       (example_ticket, [Net (poll_request example_ticket)])).
Proof.
  split; [|split].
  - apply (try_get_result_without_pipe (stub [body "CAPCHA_NOT_READY"])
             html5_amp default_limit example_ticket [] (u "CAPCHA_NOT_READY"));
      [reflexivity | reflexivity | reflexivity | left; reflexivity].
  - apply (try_get_result_without_pipe (stub [body "CAPTCHA_NOT_READY"])
             html5_amp default_limit example_ticket [] (u "CAPTCHA_NOT_READY"));
      [reflexivity | reflexivity | reflexivity | right; reflexivity].
  - apply (try_get_result_without_pipe (stub [body "ERROR_CAPTCHA_UNSOLVABLE"])
             html5_amp default_limit example_ticket [] (u "ERROR_CAPTCHA_UNSOLVABLE"));
      [reflexivity | reflexivity | reflexivity | discriminate | discriminate].
Defined.

(** Decoding the text of the specification's example, for any table
    that knows [&amp;]. *)
Lemma replace_charref_amp html5 limit :
  html5 !! u "amp;" = Some (u "&") ->
  Html._replace_charref html5 limit (u "amp;") = Return (u "&").
Proof.
  intros H. unfold Html._replace_charref.
  change (u "amp;") with [97; 109; 112; 59] in *.
  cbv beta iota. change (97 =? ch "#") with false. cbv iota.
  rewrite H. reflexivity.
Qed.

Lemma unescape_amp_example html5 limit :
  html5 !! u "amp;" = Some (u "&") ->
  Html.unescape html5 limit (u "OK|5&amp;6") = Return (u "OK|5&6").
Proof.
  intros H. unfold Html.unescape.
  change (contains (ch "&") (u "OK|5&amp;6")) with true.
  cbv iota beta delta [negb].
  change (Html.sub_charref html5 limit 0 (u "OK|5&amp;6"))
    with (Html.followed_by (u "O") (Html.followed_by (u "K")
           (Html.followed_by (u "|") (Html.followed_by (u "5")
              match Html._replace_charref html5 limit (u "amp;") with
              | Return r => Html.followed_by r (Return (u "6"))
              | Raise e => Raise e
              end)))).
  rewrite (replace_charref_amp _ _ H). reflexivity.
Qed.

(** A numeric reference needs no table: [&#124;] is a vertical bar. *)
Lemma unescape_numeric_pipe html5 limit :
  Html.unescape html5 limit (u "OK&#124;x") = Return (u "OK|x").
Proof. reflexivity. Qed.

(** Decoding fails on a decimal reference longer than the limit; what
    it then raises is a [ValueError], and it raises nothing else. *)
Lemma unescape_long_reference :
  Html.unescape html5_amp default_limit long_reference
    = Raise long_reference_error.
Proof. vm_compute. reflexivity. Qed.

Lemma followed_by_raise pre r e :
  Html.followed_by pre r = Raise e -> r = Raise e.
Proof. destruct r; [discriminate | exact (fun H => H)]. Qed.

Lemma replace_charref_raises html5 limit g e :
  Html._replace_charref html5 limit g = Raise e ->
  isinstance e builtins_ValueError = true.
Proof.
  unfold Html._replace_charref, Html.int. intros H.
  destruct g as [|c [|x t]].
  - destruct (html5 !! _); discriminate H.
  - destruct (html5 !! _); discriminate H.
  - destruct (c =? ch "#").
    + destruct ((x =? ch "x") || (x =? ch "X")); [discriminate H|].
      destruct (_ && _); [|discriminate H].
      injection H as <-. reflexivity.
    + destruct (html5 !! _); [discriminate H|].
      destruct (Html.longest_name _ _ _); discriminate H.
Qed.

Lemma sub_charref_raises html5 limit s : forall skip e,
  Html.sub_charref html5 limit skip s = Raise e ->
  isinstance e builtins_ValueError = true.
Proof.
  induction s as [|c s IH]; intros skip e H; [discriminate H|].
  cbn [Html.sub_charref] in H. destruct skip as [|k]; [|exact (IH _ _ H)].
  destruct (c =? ch "&").
  - destruct (Html.match_charref s) as [g|].
    + destruct (Html._replace_charref html5 limit g) as [r|e0] eqn:Hg.
      * apply followed_by_raise in H. exact (IH _ _ H).
      * injection H as <-. exact (replace_charref_raises _ _ _ _ Hg).
    + apply followed_by_raise in H. exact (IH _ _ H).
  - apply followed_by_raise in H. exact (IH _ _ H).
Qed.

Lemma unescape_raises_value_error html5 limit s e :
  Html.unescape html5 limit s = Raise e ->
  isinstance e builtins_ValueError = true.
Proof.
  unfold Html.unescape. destruct (negb _); [discriminate|].
  apply sub_charref_raises.
Qed.

(** C3, amended.  The test for [|] is made on the body as received;
    when it holds, the body is decoded and the decoded text is split at
    [|]: two parts give the second one, returned and cached; any other
    number of parts raises [ResponseFormatError] and caches nothing, and
    so does a body that cannot be decoded (a decimal reference with
    more digits than the interpreter converts).  With a table that
    knows [&amp;], the body [OK|5&amp;6] caches [5&6]. *)
Theorem try_get_result_with_pipe net html5 limit self w body :
  _cached_result self = None ->
  contains (ch "|") body = true ->
  net w (poll_request self) = Return {| text := body |} ->
  let w' := w ++ [Net (poll_request self)] in
  (forall decoded a r,
     Html.unescape html5 limit body = Return decoded ->
     split (ch "|") decoded = [a; r] ->
     try_get_result net html5 limit (self, w)
       = (Return (Some r), (resolved self r, w')))
  /\ (forall decoded,
        Html.unescape html5 limit body = Return decoded ->
        length (split (ch "|") decoded) <> 2%nat ->
        try_get_result net html5 limit (self, w)
          = (Raise (ResponseFormatError
                      (Literal (u "unexpected response format"))), (self, w')))
  /\ (forall e,
        Html.unescape html5 limit body = Raise e ->
        try_get_result net html5 limit (self, w)
          = (Raise (ResponseFormatError
                      (Literal (u "unexpected response format"))), (self, w')))
  /\ (html5 !! u "amp;" = Some (u "&") -> body = u "OK|5&amp;6" ->
      try_get_result net html5 limit (self, w)
        = (Return (Some (u "5&6")), (resolved self (u "5&6"), w'))).
Proof.
  intros Hc Hp Hn w'.
  pose proof (try_get_result_answered net html5 limit self w _ Hc Hn) as E.
  cbn [text] in E. rewrite Hp in E. fold w' in E.
  split; [|split; [|split]].
  - intros decoded a r Hd Hs. rewrite E, Hd, Hs. reflexivity.
  - intros decoded Hd Hl. rewrite E, Hd.
    destruct (split (ch "|") decoded) as [|a [|b [|c l]]]; try reflexivity.
    exfalso. apply Hl. reflexivity.
  - intros e He. rewrite E, He.
    rewrite (unescape_raises_value_error _ _ _ _ He). reflexivity.
  - intros Ha ->. rewrite E, (unescape_amp_example _ _ Ha). reflexivity.
Qed.

Lemma try_get_result_with_pipe_witness :
  try_get_result (stub [body "OK|5&amp;6"]) html5_amp default_limit
                 (example_ticket, [])
    = (Return (Some (u "5&6")),
       (resolved example_ticket (u "5&6"), [Net (poll_request example_ticket)]))
  /\ try_get_result (stub [body "OK|a|b"]) html5_amp default_limit
                    (example_ticket, [])
    = (Raise (ResponseFormatError (Literal (u "unexpected response format"))),
       (example_ticket, [Net (poll_request example_ticket)]))
  /\ try_get_result (stub [Return {| text := long_reference |}]) html5_amp
                    default_limit (example_ticket, [])
    = (Raise (ResponseFormatError (Literal (u "unexpected response format"))),
       (example_ticket, [Net (poll_request example_ticket)])).
Proof.
  split; [|split].
  - apply (proj2 (proj2 (proj2 (try_get_result_with_pipe
             (stub [body "OK|5&amp;6"]) html5_amp default_limit
             example_ticket [] (u "OK|5&amp;6") eq_refl eq_refl eq_refl))));
      reflexivity.
  - apply (proj1 (proj2 (try_get_result_with_pipe
             (stub [body "OK|a|b"]) html5_amp default_limit
             example_ticket [] (u "OK|a|b") eq_refl eq_refl eq_refl))
             (u "OK|a|b")); [reflexivity | vm_compute; lia].
  - apply (proj1 (proj2 (proj2 (try_get_result_with_pipe
             (stub [Return {| text := long_reference |}]) html5_amp
             default_limit example_ticket [] long_reference
             eq_refl eq_refl eq_refl))) long_reference_error).
    exact unescape_long_reference.
Defined.

(** C3 as stated fails: the body [OK&#124;x] decodes to [OK|x], which
    contains [|] and splits into exactly two parts, so that decoding and
    then splitting gives [x]; yet the poll raises [OperationFailedError]
    on the undecoded body and caches nothing, because the source tests
    the undecoded body for [|]. *)
Lemma try_get_result_pipe_only_after_decoding :
  decode_then_split html5_amp default_limit (u "OK&#124;x") = Some (Return (u "x"))
  /\ Html.unescape html5_amp default_limit (u "OK&#124;x") = Return (u "OK|x")
  /\ contains (ch "|") (u "OK|x") = true
  /\ split (ch "|") (u "OK|x") = [u "OK"; u "x"]
  /\ try_get_result (stub [body "OK&#124;x"]) html5_amp default_limit (example_ticket, [])
     = (Raise (OperationFailedError
                 (Percent_r (u "Operation failed: %r") (u "OK&#124;x"))),
        (example_ticket, [Net (poll_request example_ticket)]))
  /\ try_get_result (stub [body "OK&#124;x"]) html5_amp default_limit (example_ticket, [])
     <> (Return (Some (u "x")),
         (resolved example_ticket (u "x"), [Net (poll_request example_ticket)])).
Proof.
  repeat split; try reflexivity.
  intros H. discriminate H.
Qed.

(** ** Waiting *)

Lemma not_ready_no_pipe (b : str) :
  b ∈ not_ready -> contains (ch "|") b = false.
Proof. rewrite not_ready_spec. intros [-> | ->]; reflexivity. Qed.

Lemma rounds_snoc rq t k :
  rounds rq t (S k) = [Net rq; Sleep t] ++ rounds rq t k.
Proof. reflexivity. Qed.

(** One round of the loop that finds the result not ready. *)
Lemma await_result_round net html5 limit clock self w t fuel b :
  _cached_result self = None ->
  clock t = Return tt ->
  b ∈ not_ready ->
  net w (poll_request self) = Return {| text := b |} ->
  await_result net html5 limit clock (S fuel) t (self, w)
    = await_result net html5 limit clock fuel t
        (self, w ++ [Net (poll_request self); Sleep t]).
Proof.
  intros Hc Hs Hb Hn. cbn [await_result].
  rewrite (try_get_result_answered net html5 limit self w _ Hc Hn).
  cbn [text]. rewrite (not_ready_no_pipe _ Hb).
  rewrite bool_decide_eq_true_2 by exact Hb.
  cbn zeta. unfold in_world, time_sleep. cbn [fst snd]. rewrite Hs.
  rewrite <- app_assoc. reflexivity.
Qed.

(** A round in which the clock refuses to sleep ends the loop with the
    exception of the clock, after the poll. *)
Lemma await_result_sleep_refused net html5 limit clock self w t fuel b e :
  _cached_result self = None ->
  clock t = Raise e ->
  b ∈ not_ready ->
  net w (poll_request self) = Return {| text := b |} ->
  await_result net html5 limit clock (S fuel) t (self, w)
    = Some (Raise e, (self, w ++ [Net (poll_request self)])).
Proof.
  intros Hc Hs Hb Hn. cbn [await_result].
  rewrite (try_get_result_answered net html5 limit self w _ Hc Hn).
  cbn [text]. rewrite (not_ready_no_pipe _ Hb).
  rewrite bool_decide_eq_true_2 by exact Hb.
  cbn zeta. unfold in_world, time_sleep. cbn [fst snd]. rewrite Hs.
  reflexivity.
Qed.

(** [N] such rounds. *)
Lemma await_result_rounds net html5 limit clock self t N : forall w fuel,
  _cached_result self = None ->
  clock t = Return tt ->
  (forall k, (k < N)%nat ->
     exists b, b ∈ not_ready
       /\ net (w ++ rounds (poll_request self) t k) (poll_request self)
          = Return {| text := b |}) ->
  await_result net html5 limit clock (N + fuel) t (self, w)
    = await_result net html5 limit clock fuel t
        (self, w ++ rounds (poll_request self) t N).
Proof.
  induction N as [|N IH]; intros w fuel Hc Hs Hr.
  - simpl. rewrite app_nil_r. reflexivity.
  - destruct (Hr 0%nat) as (b & Hb & Hn); [lia|].
    simpl rounds in Hn. rewrite app_nil_r in Hn.
    change (S N + fuel)%nat with (S (N + fuel)).
    rewrite (await_result_round net html5 limit clock self w t _ b Hc Hs Hb Hn).
    rewrite IH; [|exact Hc|exact Hs|].
    + rewrite rounds_snoc, app_assoc. reflexivity.
    + intros k Hk. destruct (Hr (S k)) as (b' & Hb' & Hn'); [lia|].
      exists b'. split; [exact Hb'|].
      rewrite rounds_snoc, app_assoc in Hn'. exact Hn'.
Qed.

Lemma net_calls_app w1 w2 : net_calls (w1 ++ w2) = (net_calls w1 + net_calls w2)%nat.
Proof. unfold net_calls. rewrite filter_app, length_app. reflexivity. Qed.

Lemma sleeps_app w1 w2 : sleeps (w1 ++ w2) = (sleeps w1 + sleeps w2)%nat.
Proof. unfold sleeps. rewrite filter_app, length_app. reflexivity. Qed.

Lemma net_calls_rounds rq t k : net_calls (rounds rq t k) = k.
Proof.
  induction k as [|k IH]; [reflexivity|].
  change (net_calls (rounds rq t (S k))) with (S (net_calls (rounds rq t k))).
  rewrite IH. reflexivity.
Qed.

Lemma sleeps_rounds rq t k : filter is_sleep (rounds rq t k) = repeat (Sleep t) k.
Proof.
  induction k as [|k IH]; [reflexivity|].
  change (filter is_sleep (rounds rq t (S k)))
    with (Sleep t :: filter is_sleep (rounds rq t k)).
  rewrite IH. reflexivity.
Qed.

(** C5.  Against a transport that answers "not ready" (either spelling)
    to the first [N] polls, with a [sleep_time] the clock accepts and
    any fuel above [N]:
    - if the next answer is [OK|secret], [await_result] returns
      [secret]; the trace is [N] rounds of poll-then-sleep and one more
      poll, so there were [N + 1] network calls and [N] sleeps, each of
      [sleep_time];
    - if the next [try_get_result] raises, [await_result] raises the
      same exception and stops in the state that poll left. *)
Theorem await_result_polls net html5 limit clock self w sleep_time N fuel :
  _cached_result self = None ->
  clock sleep_time = Return tt ->
  (forall k, (k < N)%nat ->
     exists b, b ∈ not_ready
       /\ net (w ++ rounds (poll_request self) sleep_time k) (poll_request self)
          = Return {| text := b |}) ->
  (N < fuel)%nat ->
  let rq := poll_request self in
  let w' := w ++ rounds rq sleep_time N ++ [Net rq] in
  (net (w ++ rounds rq sleep_time N) rq = body "OK|secret" ->
   await_result net html5 limit clock fuel sleep_time (self, w)
     = Some (Return (u "secret"), (resolved self (u "secret"), w'))
   /\ net_calls w' = (net_calls w + (N + 1))%nat
   /\ sleeps w' = (sleeps w + N)%nat
   /\ filter is_sleep w' = filter is_sleep w ++ repeat (Sleep sleep_time) N)
  /\ (forall e s',
        try_get_result net html5 limit (self, w ++ rounds rq sleep_time N)
          = (Raise e, s') ->
        await_result net html5 limit clock fuel sleep_time (self, w)
          = Some (Raise e, s')).
Proof.
  intros Hc Hs Hr Hf rq w'.
  destruct fuel as [|fuel]; [lia|].
  replace (S fuel) with (N + S (fuel - N))%nat by lia.
  rewrite (await_result_rounds net html5 limit clock self sleep_time N w _ Hc Hs Hr).
  fold rq. split.
  - intros Hn. split; [|split; [|split]].
    + cbn [await_result].
      rewrite (try_get_result_answered net html5 limit self _ _ Hc Hn).
      cbn [text]. change (contains (ch "|") (u "OK|secret")) with true.
      cbv iota. rewrite unescape_no_amp by reflexivity. cbv iota.
      unfold w'. rewrite app_assoc. reflexivity.
    + unfold w'. rewrite !net_calls_app, net_calls_rounds. reflexivity.
    + unfold w'. rewrite !sleeps_app. unfold sleeps at 2 3.
      rewrite sleeps_rounds, repeat_length. simpl. lia.
    + unfold w'. rewrite !filter_app, sleeps_rounds. simpl.
      rewrite app_nil_r. reflexivity.
  - intros e s' He. cbn [await_result]. rewrite He. reflexivity.
Qed.

Lemma await_result_polls_witness :
  await_result
    (stub [body "CAPCHA_NOT_READY"; body "CAPTCHA_NOT_READY"; body "OK|secret"])
    html5_amp default_limit example_clock 3 default_sleep_time (example_ticket, [])
  = Some (Return (u "secret"),
          (resolved example_ticket (u "secret"),
           [Net (poll_request example_ticket); Sleep default_sleep_time;
            Net (poll_request example_ticket); Sleep default_sleep_time;
            Net (poll_request example_ticket)])).
Proof.
  refine (proj1 (proj1 (await_result_polls
    (stub [body "CAPCHA_NOT_READY"; body "CAPTCHA_NOT_READY"; body "OK|secret"])
    html5_amp default_limit example_clock example_ticket [] default_sleep_time 2 3
    _ _ _ _) _)).
  - reflexivity.
  - reflexivity.
  - intros k Hk. destruct k as [|[|k]].
    + exists (u "CAPCHA_NOT_READY"). split; [vm_compute; left|]; reflexivity.
    + exists (u "CAPTCHA_NOT_READY").
      split; [vm_compute; right; left|]; reflexivity.
    + lia.
  - lia.
  - reflexivity.
Defined.

(** ** Reporting *)

(** What [report_bad] does once its two guards are passed and the
    transport has answered. *)
Lemma report_bad_answered net self w r resp :
  _cached_result self = Some r ->
  _reported_bad self = false ->
  net w (report_request self) = Return resp ->
  report_bad net (self, w) =
    ((if bool_decide (text resp = u "OK_REPORT_RECORDED") then Return tt
      else Raise (ResponseFormatError (Literal (u "unexpected API response")))),
     (self, w ++ [Net (report_request self)])).
Proof.
  intros Hc Hb Hn. run_method. rewrite Hc, Hb. cbn [fst snd].
  change (net w _) with (net w (report_request self)). rewrite Hn.
  cbn [fst snd]. destruct (decide (text resp = u "OK_REPORT_RECORDED")) as [E|E].
  - rewrite bool_decide_eq_false_2 by (intros H; exact (H E)).
    rewrite bool_decide_eq_true_2 by exact E. reflexivity.
  - rewrite bool_decide_eq_true_2 by exact E.
    rewrite bool_decide_eq_false_2 by exact E. reflexivity.
Qed.

(** Before any result, [report_bad] raises the builtin [ValueError],
    which is none of the module's exception classes, and sends nothing. *)
Lemma report_bad_before_result net self w :
  _cached_result self = None ->
  report_bad net (self, w)
    = (Raise (ValueError (Literal (u
         "tried reporting bad state for captcha not yet retrieved"))),
       (self, w)).
Proof. intros Hc. run_method. rewrite Hc. reflexivity. Qed.

(** The guard against a second report, were the flag ever set. *)
Lemma report_bad_when_flagged net self w r :
  _cached_result self = Some r ->
  _reported_bad self = true ->
  report_bad net (self, w)
    = (Raise (ValueError (Literal (u "tried double-reporting bad captcha"))),
       (self, w)).
Proof. intros Hc Hb. run_method. rewrite Hc, Hb. reflexivity. Qed.

(** No run of [report_bad] changes the ticket: the method has no
    assignment to [_reported_bad]. *)
Lemma report_bad_keeps_ticket net s : fst (snd (report_bad net s)) = fst s.
Proof.
  destruct s as [self w]. run_method.
  destruct (_cached_result self); [|reflexivity].
  destruct (_reported_bad self); [reflexivity|]. cbn [fst snd].
  destruct (net w _) as [resp|e]; cbn [fst snd].
  - destruct (bool_decide _); reflexivity.
  - destruct (isinstance e requests_RequestException); reflexivity.
Qed.

(** C8.  With the result cached and no report made, [report_bad]
    succeeds exactly when the body is the literal [OK_REPORT_RECORDED]
    and raises [ResponseFormatError] on any other body. *)
Theorem report_bad_literal net self w r body :
  _cached_result self = Some r ->
  _reported_bad self = false ->
  net w (report_request self) = Return {| text := body |} ->
  (fst (report_bad net (self, w)) = Return tt <-> body = u "OK_REPORT_RECORDED")
  /\ (body <> u "OK_REPORT_RECORDED" ->
      fst (report_bad net (self, w))
        = Raise (ResponseFormatError (Literal (u "unexpected API response")))).
Proof.
  intros Hc Hb Hn. rewrite (report_bad_answered net self w r _ Hc Hb Hn).
  cbn [fst text]. destruct (decide (body = u "OK_REPORT_RECORDED")) as [E|E].
  - rewrite bool_decide_eq_true_2 by exact E.
    split; [split; intros _; [exact E | reflexivity] | intros H; contradiction].
  - rewrite bool_decide_eq_false_2 by exact E.
    split; [split; [discriminate | intros H; contradiction] | reflexivity].
Qed.

Lemma report_bad_literal_witness :
  fst (report_bad (stub [body "OK_REPORT_RECORDED"])
                  (resolved example_ticket (u "5&6"), [])) = Return tt
  /\ fst (report_bad (stub [body "ERROR_WRONG_CAPTCHA_ID"])
                     (resolved example_ticket (u "5&6"), []))
     = Raise (ResponseFormatError (Literal (u "unexpected API response"))).
Proof.
  split.
  - apply (report_bad_literal (stub [body "OK_REPORT_RECORDED"])
             (resolved example_ticket (u "5&6")) [] (u "5&6")
             (u "OK_REPORT_RECORDED")); reflexivity.
  - apply (report_bad_literal (stub [body "ERROR_WRONG_CAPTCHA_ID"])
             (resolved example_ticket (u "5&6")) [] (u "5&6")
             (u "ERROR_WRONG_CAPTCHA_ID"));
      [reflexivity | reflexivity | reflexivity | discriminate].
Defined.

(** C1 at its failing input.  A report that succeeds leaves
    [_reported_bad] false, so a second [report_bad] passes the guard
    against double reports, sends a second request and succeeds again
    instead of raising [ValueError]. *)
Theorem report_bad_twice net self w r :
  _cached_result self = Some r ->
  _reported_bad self = false ->
  net w (report_request self) = body "OK_REPORT_RECORDED" ->
  net (w ++ [Net (report_request self)]) (report_request self)
    = body "OK_REPORT_RECORDED" ->
  let w1 := w ++ [Net (report_request self)] in
  report_bad net (self, w) = (Return tt, (self, w1))
  /\ _reported_bad (fst (snd (report_bad net (self, w)))) = false
  /\ report_bad net (self, w1) = (Return tt, (self, w1 ++ [Net (report_request self)])).
Proof.
  intros Hc Hb H1 H2 w1.
  rewrite (report_bad_answered net self w r _ Hc Hb H1).
  fold w1 in H2 |- *.
  rewrite (report_bad_answered net self w1 r _ Hc Hb H2).
  cbn [fst snd text]. rewrite bool_decide_eq_true_2 by reflexivity.
  repeat split. exact Hb.
Qed.

Lemma report_bad_twice_witness :
  let net := stub [body "OK_REPORT_RECORDED"; body "OK_REPORT_RECORDED"] in
  let self := resolved example_ticket (u "5&6") in
  report_bad net (self, []) = (Return tt, (self, [Net (report_request self)]))
  /\ _reported_bad (fst (snd (report_bad net (self, [])))) = false
  /\ report_bad net (self, [Net (report_request self)])
     = (Return tt, (self, [Net (report_request self); Net (report_request self)])).
Proof.
  apply (report_bad_twice
           (stub [body "OK_REPORT_RECORDED"; body "OK_REPORT_RECORDED"])
           (resolved example_ticket (u "5&6")) [] (u "5&6")); reflexivity.
Defined.

(** ** Submitting *)

(** Up to the request: with the file read and a format detected,
    [solve] sends one POST, whatever comes back. *)
Lemma solve_trace net open_rb_read imghdr_what self file params w raw_data ext :
  file_contents open_rb_read file = Return raw_data ->
  imghdr_what raw_data = Some ext ->
  snd (solve net open_rb_read imghdr_what self file params w)
    = w ++ [Net (submit_request self (form_data params) ext raw_data)].
Proof.
  intros Hf Hi. solve_to_request Hf Hi.
  all: change (net w _)
    with (net w (submit_request self (form_data params) ext raw_data)).
  all: destruct (net w _) as [resp|e]; cbn [fst snd].
  all: try (destruct (contains (ch "|") (text resp)); cbn [fst snd];
            [destruct (split (ch "|") (text resp)) as [|a [|b [|c l]]]|];
            reflexivity).
  all: destruct (existsb _ _); cbn [fst snd]; [reflexivity|].
  all: destruct (isinstance e requests_RequestException); reflexivity.
Qed.

(** And once the transport has answered. *)
Lemma solve_answered net open_rb_read imghdr_what self file params w
    raw_data ext resp :
  file_contents open_rb_read file = Return raw_data ->
  imghdr_what raw_data = Some ext ->
  net w (submit_request self (form_data params) ext raw_data) = Return resp ->
  fst (solve net open_rb_read imghdr_what self file params w) =
    if contains (ch "|") (text resp) then
      match split (ch "|") (text resp) with
      | [_; captcha_id] => Return (Captcha_init self captcha_id)
      | _ => Raise (ResponseFormatError
                      (Literal (u "unexpected response format")))
      end
    else Raise (OperationFailedError
                  (Percent_r (u "Operation failed: %r") (text resp))).
Proof.
  intros Hf Hi Hn. solve_to_request Hf Hi.
  all: change (net w _)
    with (net w (submit_request self (form_data params) ext raw_data)).
  all: rewrite Hn; cbn [fst snd].
  all: destruct (contains (ch "|") (text resp)); cbn [fst snd];
    [destruct (split (ch "|") (text resp)) as [|a [|b [|c l]]]|];
    reflexivity.
Qed.

(** C6.  A submission answered with [OK|id], where [id] has no further
    [|], returns a new ticket holding [id], nothing cached and nothing
    reported; so does any body with exactly one [|], whatever stands
    before it.  A body without [|] raises [OperationFailedError] on
    that very text. *)
Theorem solve_response net open_rb_read imghdr_what self file params w
    raw_data ext body :
  file_contents open_rb_read file = Return raw_data ->
  imghdr_what raw_data = Some ext ->
  net w (submit_request self (form_data params) ext raw_data)
    = Return {| text := body |} ->
  (forall id, contains (ch "|") id = false -> body = u "OK|" ++ id ->
     fst (solve net open_rb_read imghdr_what self file params w)
       = Return {| api := self; captcha_id := id;
                   _cached_result := None; _reported_bad := false |})
  /\ (forall p id, split (ch "|") body = [p; id] ->
        fst (solve net open_rb_read imghdr_what self file params w)
          = Return (Captcha_init self id))
  /\ (contains (ch "|") body = false ->
      fst (solve net open_rb_read imghdr_what self file params w)
        = Raise (OperationFailedError
                   (Percent_r (u "Operation failed: %r") body))).
Proof.
  intros Hf Hi Hn.
  pose proof (solve_answered net open_rb_read imghdr_what self file params w
                _ _ _ Hf Hi Hn) as E. cbn [text] in E.
  assert (Hsplit : forall p id, split (ch "|") body = [p; id] ->
            fst (solve net open_rb_read imghdr_what self file params w)
              = Return (Captcha_init self id)).
  { intros p id Hs. rewrite E.
    destruct (contains (ch "|") body) eqn:Hp.
    - rewrite Hs. reflexivity.
    - rewrite (split_no_sep _ _ Hp) in Hs. discriminate Hs. }
  split; [|split].
  - intros id Hid ->. apply (Hsplit (u "OK")).
    apply (split_one_sep (ch "|") (u "OK") id); [reflexivity | exact Hid].
  - exact Hsplit.
  - intros Hp. rewrite E, Hp. reflexivity.
Qed.

Lemma solve_response_witness :
  fst (solve (stub [body "OK|12345"]) no_files png_only example_api
             (FileObject (Return [])) None [])
    = Return example_ticket
  /\ fst (solve (stub [body "ERROR_ZERO_BALANCE"]) no_files png_only example_api
                (FileObject (Return [])) None [])
    = Raise (OperationFailedError
               (Percent_r (u "Operation failed: %r") (u "ERROR_ZERO_BALANCE"))).
Proof.
  split.
  - apply (proj1 (solve_response (stub [body "OK|12345"]) no_files png_only
             example_api (FileObject (Return [])) None [] [] (u "png")
             (u "OK|12345") eq_refl eq_refl eq_refl) (u "12345"));
      reflexivity.
  - apply (solve_response (stub [body "ERROR_ZERO_BALANCE"]) no_files png_only
             example_api (FileObject (Return [])) None [] [] (u "png")
             (u "ERROR_ZERO_BALANCE") eq_refl eq_refl eq_refl).
    reflexivity.
Defined.

(** C10.  The form [solve] posts is [captcha_parameters or
    {'method': 'post'}] with the key added by [post]: the default form
    when the parameters are absent, [None] or empty, and otherwise the
    caller's parameters alone, whose [method] entry, present or not, is
    what is sent. *)
Theorem solve_form_data net open_rb_read imghdr_what self file params w
    raw_data ext :
  file_contents open_rb_read file = Return raw_data ->
  imghdr_what raw_data = Some ext ->
  let posted d :=
    w ++ [Net {| rq_method := POST; rq_url := REQ_URL;
                 rq_data := <[u "key" := api_key self]> d;
                 rq_files := {[ u "file" := (u "captcha." ++ ext, raw_data) ]} |}] in
  (params = None \/ params = Some ∅ ->
   snd (solve net open_rb_read imghdr_what self file params w)
     = posted {[ u "method" := u "post" ]})
  /\ (forall d, params = Some d -> d <> ∅ ->
        snd (solve net open_rb_read imghdr_what self file params w) = posted d
        /\ (<[u "key" := api_key self]> d) !! u "method" = d !! u "method").
Proof.
  intros Hf Hi posted.
  pose proof (solve_trace net open_rb_read imghdr_what self file params w
                _ _ Hf Hi) as E.
  split.
  - intros [-> | ->]; rewrite E; reflexivity.
  - intros d -> Hd. rewrite E. split.
    + unfold form_data. destruct (decide (d = ∅)); [contradiction|reflexivity].
    + apply lookup_insert_ne. discriminate.
Qed.

Lemma solve_form_data_witness :
  let sent d :=
    [Net {| rq_method := POST; rq_url := REQ_URL;
            rq_data := <[u "key" := u "secret-key"]> d;
            rq_files := {[ u "file" := (u "captcha.png", []) ]} |}] in
  snd (solve (stub [body "OK|12345"]) no_files png_only example_api
             (FileObject (Return [])) None [])
    = sent {[ u "method" := u "post" ]}
  /\ snd (solve (stub [body "OK|12345"]) no_files png_only example_api
                (FileObject (Return [])) (Some ∅) [])
    = sent {[ u "method" := u "post" ]}
  /\ snd (solve (stub [body "OK|12345"]) no_files png_only example_api
                (FileObject (Return [])) (Some {[ u "regsense" := u "1" ]}) [])
    = sent {[ u "regsense" := u "1" ]}.
Proof.
  intros sent. split; [|split].
  - apply (proj1 (solve_form_data (stub [body "OK|12345"]) no_files png_only
             example_api (FileObject (Return [])) None [] [] (u "png")
             eq_refl eq_refl)). left. reflexivity.
  - apply (proj1 (solve_form_data (stub [body "OK|12345"]) no_files png_only
             example_api (FileObject (Return [])) (Some ∅) [] [] (u "png")
             eq_refl eq_refl)). right. reflexivity.
  - refine (proj1 (proj2 (solve_form_data (stub [body "OK|12345"]) no_files
             png_only example_api (FileObject (Return []))
             (Some {[ u "regsense" := u "1" ]}) [] [] (u "png")
             eq_refl eq_refl) _ eq_refl _)).
    vm_compute. discriminate.
Defined.

(** ** The balance *)


(** It is a 53-bit significand and lies within half a unit in the last
    place of 1234/100: the nearest binary64 to 12.34. *)
Lemma float_12_34_nearest :
  (2 ^ 52 <= 6946802425218990 < 2 ^ 53)%Z
  /\ (2 * Z.abs (1234 * 2 ^ 49 - 100 * 6946802425218990) <= 100)%Z.
Proof. split; [split|]; vm_compute; congruence. Qed.

Lemma float_of_12_34 usp udec :
  Float.PyFloat_FromString usp udec (u "12.34") = Some float_12_34.
Proof. reflexivity. Qed.

Lemma float_of_error_code usp udec :
  Float.PyFloat_FromString usp udec (u "ERROR_WRONG_USER_KEY") = None.
Proof. reflexivity. Qed.

Lemma float_of_nan usp udec :
  Float.PyFloat_FromString usp udec (u "nan") = Some S754_nan.
Proof. reflexivity. Qed.




(** ** Transport failures *)

(** The operations under [_rewrite_http_to_com_err] alone turn every
    [RequestException] of the transport into [CommunicationError]. *)
Lemma get_load_transport_failure net self w e :
  isinstance e requests_RequestException = true ->
  net w (load_request self) = Raise e ->
  get_load net self w = (Raise communication_error, w ++ [Net (load_request self)]).
Proof.
  intros He Hn. run_method.
  change (net w _) with (net w (load_request self)). rewrite Hn, He.
  reflexivity.
Qed.

Lemma get_stats_transport_failure net self d w e :
  isinstance e requests_RequestException = true ->
  net w (stats_request self d) = Raise e ->
  get_stats net self (DateStr d) w
    = (Raise communication_error, w ++ [Net (stats_request self d)]).
Proof.
  intros He Hn. run_method.
  change (net w _) with (net w (stats_request self d)). rewrite Hn, He.
  reflexivity.
Qed.

Lemma report_bad_transport_failure net self w r e :
  _cached_result self = Some r ->
  _reported_bad self = false ->
  isinstance e requests_RequestException = true ->
  net w (report_request self) = Raise e ->
  report_bad net (self, w)
    = (Raise communication_error, (self, w ++ [Net (report_request self)])).
Proof.
  intros Hc Hb He Hn. run_method. rewrite Hc, Hb. cbn [fst snd].
  change (net w _) with (net w (report_request self)). rewrite Hn.
  cbn [fst snd]. rewrite He. reflexivity.
Qed.

(** The operations that are also under [_rewrite_to_format_err] do so
    for the exceptions that are not instances of the types given to
    that decorator, which sees them first. *)
Lemma get_balance_transport_failure net usp udec self w e :
  isinstance e requests_RequestException = true ->
  isinstance e builtins_ValueError = false ->
  net w (balance_request self) = Raise e ->
  get_balance net usp udec self w
    = (Raise communication_error, w ++ [Net (balance_request self)]).
Proof.
  intros He Hv Hn. run_method.
  change (net w _) with (net w (balance_request self)). rewrite Hn.
  cbn [existsb]. rewrite Hv. cbn [orb]. rewrite He. reflexivity.
Qed.

Lemma try_get_result_transport_failure net html5 limit self w e :
  _cached_result self = None ->
  isinstance e requests_RequestException = true ->
  isinstance e builtins_ValueError = false ->
  net w (poll_request self) = Raise e ->
  try_get_result net html5 limit (self, w)
    = (Raise communication_error, (self, w ++ [Net (poll_request self)])).
Proof.
  intros Hc He Hv Hn. run_method. rewrite Hc. cbn [fst snd].
  change (net w _) with (net w (poll_request self)). rewrite Hn.
  cbn [fst snd existsb]. rewrite Hv. cbn [orb]. rewrite He. reflexivity.
Qed.

Lemma solve_transport_failure net open_rb_read imghdr_what self file params w
    raw_data ext e :
  file_contents open_rb_read file = Return raw_data ->
  imghdr_what raw_data = Some ext ->
  isinstance e requests_RequestException = true ->
  isinstance e builtins_ValueError = false ->
  isinstance e builtins_IndexError = false ->
  net w (submit_request self (form_data params) ext raw_data) = Raise e ->
  fst (solve net open_rb_read imghdr_what self file params w)
    = Raise communication_error.
Proof.
  intros Hf Hi He Hv Hx Hn. solve_to_request Hf Hi.
  all: change (net w _)
    with (net w (submit_request self (form_data params) ext raw_data)).
  all: rewrite Hn; cbn [fst snd existsb]; rewrite Hv, Hx; cbn [orb fst snd].
  all: rewrite He; reflexivity.
Qed.

(** C7 at its failing input.  An exception of the transport that is a
    [RequestException] and a [ValueError] at once (as [InvalidSchema],
    [InvalidURL] and their kin are) leaves [get_balance], and likewise
    [try_get_result], as [ResponseFormatError]: the inner decorator
    rewrites it before the outer one sees it.  The same exception
    leaves [get_load] as [CommunicationError]. *)
Theorem request_exception_rewritten_as_format_error
    net usp udec html5 limit self ticket w e :
  isinstance e requests_RequestException = true ->
  isinstance e builtins_ValueError = true ->
  _cached_result ticket = None ->
  (net w (balance_request self) = Raise e ->
   get_balance net usp udec self w
     = (Raise format_error, w ++ [Net (balance_request self)]))
  /\ (net w (poll_request ticket) = Raise e ->
      try_get_result net html5 limit (ticket, w)
        = (Raise format_error, (ticket, w ++ [Net (poll_request ticket)])))
  /\ (net w (load_request self) = Raise e ->
      get_load net self w
        = (Raise communication_error, w ++ [Net (load_request self)]))
  /\ format_error <> communication_error.
Proof.
  intros He Hv Hc. split; [|split; [|split]].
  - intros Hn. run_method.
    change (net w _) with (net w (balance_request self)). rewrite Hn.
    cbn [existsb]. rewrite Hv. reflexivity.
  - intros Hn. run_method. rewrite Hc. cbn [fst snd].
    change (net w _) with (net w (poll_request ticket)). rewrite Hn.
    cbn [fst snd existsb]. rewrite Hv. reflexivity.
  - intros Hn. apply (get_load_transport_failure _ _ _ _ He Hn).
  - discriminate.
Qed.

Lemma request_exception_rewritten_as_format_error_witness :
  get_balance (stub [Raise InvalidSchema]) no_unicode_space no_unicode_decimal
              example_api []
    = (Raise format_error, [Net (balance_request example_api)])
  /\ try_get_result (stub [Raise InvalidSchema]) html5_amp default_limit (example_ticket, [])
     = (Raise format_error, (example_ticket, [Net (poll_request example_ticket)]))
  /\ get_load (stub [Raise InvalidSchema]) example_api []
     = (Raise communication_error, [Net (load_request example_api)]).
Proof.
  pose proof (request_exception_rewritten_as_format_error
    (stub [Raise InvalidSchema]) no_unicode_space no_unicode_decimal html5_amp default_limit
    example_api example_ticket [] InvalidSchema eq_refl eq_refl eq_refl)
    as (H1 & H2 & H3 & _).
  split; [|split].
  - apply H1. reflexivity.
  - apply H2. reflexivity.
  - apply H3. reflexivity.
Defined.

(** ** Decimal numbers *)











(** The example of the specification is an instance. *)
Lemma float_12_34_is_decimal :
  float_12_34 = Float.of_decimal false 1234 (-2).
Proof. reflexivity. Qed.

(* ===================================================================== *)
(** * Further properties                                                  *)
(* ===================================================================== *)

(** ** Requests *)

(** The trace each operation leaves: nothing new, or its one request. *)
Lemma get_balance_trace net usp udec self w :
  snd (get_balance net usp udec self w) = w ++ [Net (balance_request self)].
Proof.
  run_method. change (net w _) with (net w (balance_request self)).
  destruct (net w _) as [resp|e]; cbn [fst snd].
  - unfold float. destruct (Float.PyFloat_FromString _ _ _); reflexivity.
  - destruct (existsb _ _); cbn [fst snd]; [reflexivity|].
    destruct (isinstance e _); reflexivity.
Qed.

Lemma get_stats_trace net self d w :
  snd (get_stats net self (DateStr d) w) = w ++ [Net (stats_request self d)].
Proof.
  run_method. change (net w _) with (net w (stats_request self d)).
  destruct (net w _) as [resp|e]; cbn [fst snd]; [reflexivity|].
  destruct (isinstance e _); reflexivity.
Qed.

Lemma get_load_trace net self w :
  snd (get_load net self w) = w ++ [Net (load_request self)].
Proof.
  run_method. change (net w _) with (net w (load_request self)).
  destruct (net w _) as [resp|e]; cbn [fst snd]; [reflexivity|].
  destruct (isinstance e _); reflexivity.
Qed.

Lemma solve_unsent net open_rb_read imghdr_what self file params w :
  (forall raw_data ext, file_contents open_rb_read file = Return raw_data ->
     imghdr_what raw_data = Some ext -> False) ->
  snd (solve net open_rb_read imghdr_what self file params w) = w.
Proof.
  intros H. unfold file_contents in H. destruct file as [path|read]; run_method.
  - destruct (open_rb_read path) as [raw|e]; cbn [fst snd].
    + destruct (imghdr_what raw) as [ext|] eqn:Hi; cbn [fst snd];
        [exfalso; exact (H raw ext eq_refl Hi) | reflexivity].
    + destruct (existsb _ _); cbn [fst snd]; [reflexivity|].
      destruct (isinstance e _); reflexivity.
  - destruct read as [raw|e]; cbn [fst snd].
    + destruct (imghdr_what raw) as [ext|] eqn:Hi; cbn [fst snd];
        [exfalso; exact (H raw ext eq_refl Hi) | reflexivity].
    + destruct (existsb _ _); cbn [fst snd]; [reflexivity|].
      destruct (isinstance e _); reflexivity.
Qed.

Lemma solve_trace_cases net open_rb_read imghdr_what self file params w :
  snd (solve net open_rb_read imghdr_what self file params w) = w
  \/ exists raw_data ext,
       snd (solve net open_rb_read imghdr_what self file params w)
         = w ++ [Net (submit_request self (form_data params) ext raw_data)].
Proof.
  destruct (file_contents open_rb_read file) as [raw|e] eqn:Hf.
  - destruct (imghdr_what raw) as [ext|] eqn:Hi.
    + right. exists raw, ext. apply (solve_trace _ _ _ _ _ _ _ _ _ Hf Hi).
    + left. apply solve_unsent. intros raw' ext' Hf' Hi'. congruence.
  - left. apply solve_unsent. intros raw' ext' Hf' Hi'. congruence.
Qed.

Lemma try_get_result_trace net html5 limit self w :
  snd (snd (try_get_result net html5 limit (self, w)))
    = if _cached_result self is None then w ++ [Net (poll_request self)] else w.
Proof.
  run_method. destruct (_cached_result self) as [r|]; [reflexivity|].
  cbn [fst snd]. change (net w _) with (net w (poll_request self)).
  destruct (net w _) as [resp|e]; cbn [fst snd].
  - destruct (contains (ch "|") (text resp)); cbn [fst snd].
    + destruct (Html.unescape html5 limit (text resp)) as [decoded|e];
        cbn [fst snd].
      * destruct (split _ _) as [|a [|b [|c l]]]; reflexivity.
      * destruct (existsb _ _); cbn [fst snd]; [reflexivity|].
        destruct (isinstance e _); reflexivity.
    + destruct (bool_decide _); reflexivity.
  - destruct (existsb _ _); cbn [fst snd]; [reflexivity|].
    destruct (isinstance e _); reflexivity.
Qed.

Lemma report_bad_trace net self w :
  snd (snd (report_bad net (self, w)))
    = if _cached_result self is None then w
      else if _reported_bad self then w
      else w ++ [Net (report_request self)].
Proof.
  run_method. destruct (_cached_result self) as [r|]; [|reflexivity].
  destruct (_reported_bad self); [reflexivity|]. cbn [fst snd].
  change (net w _) with (net w (report_request self)).
  destruct (net w _) as [resp|e]; cbn [fst snd].
  - destruct (bool_decide _); reflexivity.
  - destruct (isinstance e _); reflexivity.
Qed.


(** ** What the decorators let through *)

Lemma rewrite_http_never_request_exception {S A} (func : M S A) s :
  never_raises requests_RequestException
    (fst (_rewrite_http_to_com_err func s)).
Proof.
  unfold _rewrite_http_to_com_err. destruct (func s) as [[a|e] s'].
  - exact I.
  - destruct (isinstance e requests_RequestException) eqn:He; cbn.
    + reflexivity.
    + exact He.
Qed.

Lemma existsb_isinstance_false e types c :
  existsb (isinstance e) types = false -> In c types -> isinstance e c = false.
Proof.
  intros H Hc. destruct (isinstance e c) eqn:E; [|reflexivity].
  rewrite <- H. symmetry. apply existsb_exists. exists c. split; assumption.
Qed.

Lemma rewrite_both_never_listed {S A} types (func : M S A) s c :
  In c types ->
  never_raises c
    (fst (_rewrite_http_to_com_err (_rewrite_to_format_err types func) s)).
Proof.
  intros Hc. unfold _rewrite_http_to_com_err, _rewrite_to_format_err.
  destruct (func s) as [[a|e] s']; [exact I|].
  destruct (existsb (isinstance e) types) eqn:Hx; cbn; [reflexivity|].
  destruct (isinstance e requests_RequestException); cbn; [reflexivity|].
  apply (existsb_isinstance_false _ _ _ Hx Hc).
Qed.

(** X2.  No operation under [_rewrite_http_to_com_err] lets an exception
    of [requests] out: whatever the transport, the file system and the
    other collaborators do, what [get_balance], [get_stats], [get_load],
    [solve], [try_get_result] and [report_bad] raise is never an
    instance of [RequestException]. *)
Theorem operations_never_raise_request_exception
    net usp udec open_rb_read imghdr_what html5 limit self ticket file params
    date w :
  never_raises requests_RequestException (fst (get_balance net usp udec self w))
  /\ never_raises requests_RequestException (fst (get_stats net self date w))
  /\ never_raises requests_RequestException (fst (get_load net self w))
  /\ never_raises requests_RequestException
       (fst (solve net open_rb_read imghdr_what self file params w))
  /\ never_raises requests_RequestException
       (fst (try_get_result net html5 limit (ticket, w)))
  /\ never_raises requests_RequestException (fst (report_bad net (ticket, w))).
Proof.
  repeat split; apply rewrite_http_never_request_exception.
Qed.

(** X3.  The operations that are also under [_rewrite_to_format_err]
    never raise an instance of the types given to it: [get_balance] and
    [try_get_result] raise no [ValueError], [solve] no [ValueError] and
    no [IndexError], whatever [float], the unpacking of the split or
    the collaborators raise. *)
Theorem operations_never_raise_rewritten_types
    net usp udec open_rb_read imghdr_what html5 limit self ticket file params w :
  never_raises builtins_ValueError (fst (get_balance net usp udec self w))
  /\ never_raises builtins_ValueError
       (fst (try_get_result net html5 limit (ticket, w)))
  /\ never_raises builtins_ValueError
       (fst (solve net open_rb_read imghdr_what self file params w))
  /\ never_raises builtins_IndexError
       (fst (solve net open_rb_read imghdr_what self file params w)).
Proof.
  repeat split.
  - apply (rewrite_both_never_listed [builtins_ValueError]). left. reflexivity.
  - apply (rewrite_both_never_listed [builtins_ValueError]). left. reflexivity.
  - apply (rewrite_both_never_listed [builtins_IndexError; builtins_ValueError]).
    right. left. reflexivity.
  - apply (rewrite_both_never_listed [builtins_IndexError; builtins_ValueError]).
    left. reflexivity.
Qed.

(** ** The ticket *)

(** What a poll does to the ticket. *)
Lemma try_get_result_effect net html5 limit self w :
  match try_get_result net html5 limit (self, w) with
  | (Return (Some r), (c, _)) => c = resolved self r
  | (_, (c, _)) => c = self
  end.
Proof.
  run_method. destruct (_cached_result self) as [r|] eqn:Hc.
  - cbn [fst snd]. unfold resolved. destruct self; cbn in Hc |- *.
    subst. reflexivity.
  - cbn [fst snd]. destruct (net w _) as [resp|e]; cbn [fst snd].
    + destruct (contains (ch "|") (text resp)); cbn [fst snd].
      * destruct (Html.unescape html5 limit (text resp)) as [decoded|e];
          cbn [fst snd].
        -- destruct (split _ _) as [|a [|b [|c l]]]; reflexivity.
        -- destruct (existsb _ _); cbn [fst snd]; [reflexivity|].
           destruct (isinstance e _); reflexivity.
      * destruct (bool_decide _); reflexivity.
    + destruct (existsb _ _); cbn [fst snd]; [reflexivity|].
      destruct (isinstance e _); reflexivity.
Qed.

(** X4.  A poll changes the ticket only by storing the result it
    returns: when [try_get_result] returns a string, that string is the
    cached result afterwards; when it returns [None] or raises, the
    ticket is as before.  The client, the id and the report flag never
    change. *)
Theorem try_get_result_stores_what_it_returns net html5 limit self w :
  let out := try_get_result net html5 limit (self, w) in
  let after := fst (snd out) in
  api after = api self
  /\ captcha_id after = captcha_id self
  /\ _reported_bad after = _reported_bad self
  /\ match fst out with
     | Return (Some r) => _cached_result after = Some r
     | _ => after = self
     end.
Proof.
  intros out after. subst after out.
  pose proof (try_get_result_effect net html5 limit self w) as H.
  destruct (try_get_result net html5 limit (self, w)) as [[[r|]|e] [c w']];
    cbn [fst snd]; subst c; repeat split.
Qed.

(** ** Submitting: what goes wrong before and after the request *)

(** X5.  When [imghdr] detects no format, [solve] raises the
    [TypeError] of ['captcha.' + None] and sends nothing: the transport
    is never asked. *)
Theorem solve_unknown_format net open_rb_read imghdr_what self file params w
    raw_data :
  file_contents open_rb_read file = Return raw_data ->
  imghdr_what raw_data = None ->
  solve net open_rb_read imghdr_what self file params w = (Raise TypeError, w).
Proof.
  intros Hf Hi. unfold file_contents in Hf.
  destruct file; run_method; rewrite Hf; cbn [fst snd]; rewrite Hi;
    reflexivity.
Qed.

Lemma solve_unknown_format_witness :
  solve (stub [body "OK|12345"]) no_files unknown_format example_api
        (FileObject (Return [])) None []
    = (Raise TypeError, []).
Proof.
  apply (solve_unknown_format (stub [body "OK|12345"]) no_files unknown_format
           example_api (FileObject (Return [])) None [] []); reflexivity.
Defined.

(** X6.  When the file cannot be read, [solve] sends nothing.  The
    exception of [open] or [read] goes through the two decorators: it
    comes out unchanged unless it is a [ValueError] or an [IndexError],
    which become [ResponseFormatError], or a [RequestException]. *)
Theorem solve_unreadable_file net open_rb_read imghdr_what self file params w e :
  file_contents open_rb_read file = Raise e ->
  snd (solve net open_rb_read imghdr_what self file params w) = w
  /\ (isinstance e builtins_ValueError = false ->
      isinstance e builtins_IndexError = false ->
      isinstance e requests_RequestException = false ->
      fst (solve net open_rb_read imghdr_what self file params w) = Raise e)
  /\ (isinstance e builtins_ValueError = true
      \/ isinstance e builtins_IndexError = true ->
      fst (solve net open_rb_read imghdr_what self file params w)
        = Raise format_error).
Proof.
  intros Hf. unfold file_contents in Hf.
  destruct file; run_method; rewrite Hf; cbn [fst snd existsb].
  all: split; [|split].
  all: try (intros Hv Hi Hr; rewrite Hv, Hi; cbn [orb fst snd]; rewrite Hr;
            reflexivity).
  all: try (intros [Hv | Hi];
            [rewrite Hv, orb_true_r | rewrite Hi]; reflexivity).
  all: destruct (isinstance e builtins_IndexError || _); cbn [fst snd];
    [reflexivity|]; destruct (isinstance e _); reflexivity.
Qed.

Lemma solve_unreadable_file_witness :
  solve (stub [body "OK|12345"]) no_files png_only example_api
        (FilePath (u "captcha.png")) None []
    = (Raise (PyException (u "FileNotFoundError") []), []).
Proof.
  pose proof (solve_unreadable_file (stub [body "OK|12345"]) no_files png_only
                example_api (FilePath (u "captcha.png")) None []
                (PyException (u "FileNotFoundError") []) eq_refl)
    as (Ht & He & _).
  rewrite (surjective_pairing (solve _ _ _ _ _ _ _)), Ht, He; reflexivity.
Defined.

Lemma split_length sep s : length (split sep s) = S (occurrences sep s).
Proof.
  induction s as [|c s IH]; [reflexivity|].
  cbn [split occurrences]. destruct (c =? sep).
  - cbn [length]. rewrite IH. reflexivity.
  - destruct (split sep s) as [|p ps]; [discriminate IH|].
    cbn [length] in *. exact IH.
Qed.

Lemma contains_occurrences sep s :
  contains sep s = negb (Nat.eqb (occurrences sep s) 0).
Proof.
  induction s as [|c s IH]; [reflexivity|].
  cbn [contains existsb occurrences]. rewrite N.eqb_sym.
  destruct (c =? sep); [reflexivity|]. exact IH.
Qed.

(** A split in two gives back the text around its one separator. *)
Lemma split_two_inv sep s a b :
  split sep s = [a; b] ->
  s = a ++ sep :: b /\ contains sep a = false /\ contains sep b = false.
Proof.
  revert a. induction s as [|c s IH]; intros a H; [discriminate H|].
  cbn [split] in H. destruct (c =? sep) eqn:E.
  - apply N.eqb_eq in E. subst c. injection H as <- Hs.
    assert (Hl : occurrences sep s = 0%nat).
    { pose proof (split_length sep s) as L. rewrite Hs in L.
      cbn in L. lia. }
    assert (Hc : contains sep s = false).
    { rewrite contains_occurrences, Hl. reflexivity. }
    rewrite (split_no_sep _ _ Hc) in Hs. injection Hs as <-.
    split; [reflexivity|]. split; [reflexivity | exact Hc].
  - destruct (split sep s) as [|p ps] eqn:Hs; [discriminate H|].
    injection H as <- ->.
    destruct (IH p eq_refl) as (-> & Hp & Hb).
    split; [reflexivity|]. split; [|exact Hb].
    cbn [contains existsb]. rewrite N.eqb_sym, E. exact Hp.
Qed.

(** X7.  A submission answered with a body that has two or more [|]
    raises [ResponseFormatError]: the unpacking of the split into two
    names fails with a [ValueError], which the decorator rewrites. *)
Theorem solve_many_pipes net open_rb_read imghdr_what self file params w
    raw_data ext body :
  file_contents open_rb_read file = Return raw_data ->
  imghdr_what raw_data = Some ext ->
  net w (submit_request self (form_data params) ext raw_data)
    = Return {| text := body |} ->
  (2 <= occurrences (ch "|") body)%nat ->
  fst (solve net open_rb_read imghdr_what self file params w)
    = Raise format_error.
Proof.
  intros Hf Hi Hn Ho.
  rewrite (solve_answered _ _ _ _ _ _ _ _ _ _ Hf Hi Hn). cbn [text].
  rewrite contains_occurrences.
  destruct (occurrences (ch "|") body) as [|[|k]] eqn:E; [lia | lia |].
  cbn [Nat.eqb negb].
  pose proof (split_length (ch "|") body) as L. rewrite E in L.
  destruct (split (ch "|") body) as [|a [|b [|c l]]]; try reflexivity.
  cbn in L. lia.
Qed.

Lemma solve_many_pipes_witness :
  fst (solve (stub [body "OK|123|45"]) no_files png_only example_api
             (FileObject (Return [])) None [])
    = Raise format_error.
Proof.
  apply (solve_many_pipes (stub [body "OK|123|45"]) no_files png_only
           example_api (FileObject (Return [])) None [] [] (u "png")
           (u "OK|123|45")); [reflexivity | reflexivity | reflexivity |].
  vm_compute. lia.
Defined.

(** X8.  [solve] returns a ticket only for a body with exactly one [|]:
    the id of the ticket is the text after it, whatever stands before
    it (the source does not look for [OK]), and the ticket is new:
    nothing cached, nothing reported, bound to the client. *)
Theorem solve_ticket_inversion net open_rb_read imghdr_what self file params w
    raw_data ext body c :
  file_contents open_rb_read file = Return raw_data ->
  imghdr_what raw_data = Some ext ->
  net w (submit_request self (form_data params) ext raw_data)
    = Return {| text := body |} ->
  fst (solve net open_rb_read imghdr_what self file params w) = Return c ->
  (exists p, body = p ++ ch "|" :: captcha_id c
             /\ contains (ch "|") p = false)
  /\ contains (ch "|") (captcha_id c) = false
  /\ occurrences (ch "|") body = 1%nat
  /\ c = Captcha_init self (captcha_id c).
Proof.
  intros Hf Hi Hn Hr.
  rewrite (solve_answered _ _ _ _ _ _ _ _ _ _ Hf Hi Hn) in Hr. cbn [text] in Hr.
  destruct (contains (ch "|") body); [|discriminate Hr].
  pose proof (split_length (ch "|") body) as L.
  destruct (split (ch "|") body) as [|a [|b [|x l]]] eqn:Hs;
    try discriminate Hr.
  injection Hr as <-. cbn [captcha_id Captcha_init].
  destruct (split_two_inv _ _ _ _ Hs) as (Hb & Ha & Hb').
  split; [exists a; split; assumption|].
  split; [exact Hb'|]. split; [|reflexivity].
  rewrite Hb in L |- *. cbn [length] in L. lia.
Qed.

Lemma solve_ticket_inversion_witness :
  (exists p, u "READY|77" = p ++ ch "|" :: u "77"
             /\ contains (ch "|") p = false)
  /\ contains (ch "|") (u "77") = false
  /\ occurrences (ch "|") (u "READY|77") = 1%nat
  /\ Captcha_init example_api (u "77") = Captcha_init example_api (u "77").
Proof.
  apply (solve_ticket_inversion (stub [body "READY|77"]) no_files png_only
           example_api (FileObject (Return [])) None [] [] (u "png")
           (u "READY|77") (Captcha_init example_api (u "77")));
    reflexivity.
Defined.

(** ** Statistics and load *)

(** X9.  [get_stats] and [get_load] hand back the body as it came,
    unparsed: an error code of the server is returned like any other
    text, not raised.  An exception of the transport that is no
    [RequestException] comes out unchanged. *)
Theorem get_stats_get_load_return_body net self d w :
  (forall resp, net w (stats_request self d) = Return resp ->
     get_stats net self (DateStr d) w
       = (Return (text resp), w ++ [Net (stats_request self d)]))
  /\ (forall resp, net w (load_request self) = Return resp ->
        get_load net self w
          = (Return (text resp), w ++ [Net (load_request self)]))
  /\ (forall e, isinstance e requests_RequestException = false ->
        (net w (stats_request self d) = Raise e ->
         fst (get_stats net self (DateStr d) w) = Raise e)
        /\ (net w (load_request self) = Raise e ->
            fst (get_load net self w) = Raise e)).
Proof.
  split; [|split].
  - intros resp Hn. run_method.
    change (net w _) with (net w (stats_request self d)). rewrite Hn.
    reflexivity.
  - intros resp Hn. run_method.
    change (net w _) with (net w (load_request self)). rewrite Hn.
    reflexivity.
  - intros e He. split; intros Hn; run_method.
    + change (net w _) with (net w (stats_request self d)).
      rewrite Hn, He. reflexivity.
    + change (net w _) with (net w (load_request self)).
      rewrite Hn, He. reflexivity.
Qed.

Lemma get_stats_get_load_return_body_witness :
  get_stats (stub [body "ERROR_WRONG_USER_KEY"]) example_api
            (DateStr (u "2016-01-31")) []
    = (Return (u "ERROR_WRONG_USER_KEY"),
       [Net (stats_request example_api (u "2016-01-31"))])
  /\ get_load (stub [body "<load>12</load>"]) example_api []
     = (Return (u "<load>12</load>"), [Net (load_request example_api)]).
Proof.
  split.
  - apply (proj1 (get_stats_get_load_return_body
             (stub [body "ERROR_WRONG_USER_KEY"]) example_api
             (u "2016-01-31") []) {| text := u "ERROR_WRONG_USER_KEY" |}).
    reflexivity.
  - apply (proj1 (proj2 (get_stats_get_load_return_body
             (stub [body "<load>12</load>"]) example_api
             (u "2016-01-31") [])) {| text := u "<load>12</load>" |}).
    reflexivity.
Defined.

(** X10.  A date object is sent as its [isoformat()], like the string
    itself; when [isoformat()] raises, [get_stats] sends nothing and the
    exception comes out, unchanged unless it is a [RequestException]. *)
Theorem get_stats_date_object net self w :
  (forall d, get_stats net self (DateObject (Return d)) w
             = get_stats net self (DateStr d) w)
  /\ (forall e,
        snd (get_stats net self (DateObject (Raise e)) w) = w
        /\ (isinstance e requests_RequestException = false ->
            fst (get_stats net self (DateObject (Raise e)) w) = Raise e)).
Proof.
  split; [reflexivity|]. intros e. run_method.
  destruct (isinstance e requests_RequestException) eqn:He; cbn [fst snd].
  - split; [reflexivity | discriminate].
  - split; reflexivity.
Qed.

Lemma get_stats_date_object_witness :
  get_stats (stub []) example_api
            (DateObject (Raise (PyException (u "AttributeError") []))) []
    = (Raise (PyException (u "AttributeError") []), []).
Proof.
  pose proof (proj2 (get_stats_date_object (stub []) example_api [])
                (PyException (u "AttributeError") [])) as (Ht & He).
  rewrite (surjective_pairing (get_stats _ _ _ _)), Ht, He; reflexivity.
Defined.

(** ** The balance of a plain decimal *)



(** ** Polling: plain answers, one fetch, failures *)

Lemma plain_answer_split html5 limit p r :
  contains (ch "|") p = false -> contains (ch "|") r = false ->
  contains (ch "&") p = false -> contains (ch "&") r = false ->
  contains (ch "|") (p ++ ch "|" :: r) = true
  /\ Html.unescape html5 limit (p ++ ch "|" :: r) = Return (p ++ ch "|" :: r)
  /\ split (ch "|") (p ++ ch "|" :: r) = [p; r].
Proof.
  intros Hp Hr Ap Ar. split.
  - rewrite contains_app. cbn [contains existsb]. rewrite N.eqb_refl.
    apply orb_true_r.
  - split; [|apply split_one_sep; assumption].
    apply unescape_no_amp. rewrite contains_app. cbn [contains existsb].
    fold (contains (ch "&") r). rewrite Ap, Ar. reflexivity.
Qed.

Lemma try_get_result_plain net html5 limit self w p r :
  _cached_result self = None ->
  contains (ch "|") p = false -> contains (ch "|") r = false ->
  contains (ch "&") p = false -> contains (ch "&") r = false ->
  net w (poll_request self) = Return {| text := p ++ ch "|" :: r |} ->
  try_get_result net html5 limit (self, w)
    = (Return (Some r), (resolved self r, w ++ [Net (poll_request self)])).
Proof.
  intros Hc Hp Hr Ap Ar Hn.
  rewrite (try_get_result_answered _ _ _ _ _ _ Hc Hn). cbn [text].
  destruct (plain_answer_split html5 limit p r Hp Hr Ap Ar) as (-> & -> & ->).
  reflexivity.
Qed.

(** X12.  An answer with one [|] and no [&] is returned as written:
    the text after the [|], whatever stands before it and whatever the
    table of named references holds.  The empty text after the [|] is a
    result like any other. *)
Theorem try_get_result_plain_answer net html5 limit self w p r :
  _cached_result self = None ->
  contains (ch "|") p = false -> contains (ch "|") r = false ->
  contains (ch "&") p = false -> contains (ch "&") r = false ->
  net w (poll_request self) = Return {| text := p ++ ch "|" :: r |} ->
  try_get_result net html5 limit (self, w)
    = (Return (Some r), (resolved self r, w ++ [Net (poll_request self)])).
Proof. apply try_get_result_plain. Qed.

Lemma try_get_result_plain_answer_witness :
  try_get_result (stub [body "OK|"]) html5_amp default_limit (example_ticket, [])
    = (Return (Some []),
       (resolved example_ticket [], [Net (poll_request example_ticket)])).
Proof.
  apply (try_get_result_plain_answer (stub [body "OK|"]) html5_amp default_limit
           example_ticket [] (u "OK") []); reflexivity.
Defined.

(** X13.  A result is fetched once.  After the poll that found it, any
    number of further polls return it and send nothing, also when it is
    the empty string: the first of [S n] polls makes the only request. *)
Theorem try_get_result_fetches_once net html5 limit self w body decoded a r n :
  _cached_result self = None ->
  contains (ch "|") body = true ->
  Html.unescape html5 limit body = Return decoded ->
  split (ch "|") decoded = [a; r] ->
  net w (poll_request self) = Return {| text := body |} ->
  run_many (S n) (try_get_result net html5 limit) (self, w)
    = (repeat (Return (Some r)) (S n),
       (resolved self r, w ++ [Net (poll_request self)])).
Proof.
  intros Hc Hp Hd Hs Hn. cbn [run_many repeat].
  rewrite (try_get_result_answered _ _ _ _ _ _ Hc Hn). cbn [text].
  rewrite Hp, Hd, Hs. cbn zeta.
  assert (E : forall k s,
            _cached_result (fst s) = Some r ->
            run_many k (try_get_result net html5 limit) s
              = (repeat (Return (Some r)) k, s)).
  { induction k as [|k IH]; intros [c w0] Hk; [reflexivity|].
    cbn [fst] in Hk. cbn [run_many repeat].
    rewrite (try_get_result_cached_once _ _ _ _ _ _ Hk). cbv beta iota.
    rewrite (IH (c, w0) Hk). reflexivity. }
  rewrite E; reflexivity.
Qed.

Lemma try_get_result_fetches_once_witness :
  run_many 3 (try_get_result (stub [body "OK|"]) html5_amp default_limit) (example_ticket, [])
    = ([Return (Some []); Return (Some []); Return (Some [])],
       (resolved example_ticket [], [Net (poll_request example_ticket)])).
Proof.
  apply (try_get_result_fetches_once (stub [body "OK|"]) html5_amp default_limit
           example_ticket [] (u "OK|") (u "OK|") (u "OK") [] 2); reflexivity.
Defined.

(** X14.  A failed poll is not remembered.  After a poll that raised
    [OperationFailedError] the ticket is as before, and the next poll
    asks the server again and returns the result if it is there. *)
Theorem try_get_result_failure_not_remembered net html5 limit self w failure p r :
  _cached_result self = None ->
  contains (ch "|") failure = false ->
  failure ∉ not_ready ->
  net w (poll_request self) = Return {| text := failure |} ->
  contains (ch "|") p = false -> contains (ch "|") r = false ->
  contains (ch "&") p = false -> contains (ch "&") r = false ->
  net (w ++ [Net (poll_request self)]) (poll_request self)
    = Return {| text := p ++ ch "|" :: r |} ->
  run_many 2 (try_get_result net html5 limit) (self, w)
    = ([Raise (OperationFailedError
                 (Percent_r (u "Operation failed: %r") failure));
        Return (Some r)],
       (resolved self r,
        w ++ [Net (poll_request self); Net (poll_request self)])).
Proof.
  intros Hc Hf Hnr Hn1 Hp Hr Ap Ar Hn2. cbn [run_many].
  rewrite (try_get_result_answered _ _ _ _ _ _ Hc Hn1). cbn [text].
  rewrite Hf, bool_decide_eq_false_2 by exact Hnr. cbn zeta.
  rewrite (try_get_result_plain _ html5 limit _ _ p r Hc Hp Hr Ap Ar Hn2).
  rewrite <- app_assoc. reflexivity.
Qed.

Lemma try_get_result_failure_not_remembered_witness :
  run_many 2 (try_get_result
                (stub [body "ERROR_NO_SLOT_AVAILABLE"; body "OK|abc"]) html5_amp default_limit)
           (example_ticket, [])
    = ([Raise (OperationFailedError
                 (Percent_r (u "Operation failed: %r")
                            (u "ERROR_NO_SLOT_AVAILABLE")));
        Return (Some (u "abc"))],
       (resolved example_ticket (u "abc"),
        [Net (poll_request example_ticket); Net (poll_request example_ticket)])).
Proof.
  apply (try_get_result_failure_not_remembered
           (stub [body "ERROR_NO_SLOT_AVAILABLE"; body "OK|abc"]) html5_amp default_limit
           example_ticket [] (u "ERROR_NO_SLOT_AVAILABLE") (u "OK") (u "abc"));
    try reflexivity.
  rewrite not_ready_spec. intros [H | H]; discriminate H.
Defined.

(** ** Waiting: what the loop returns, and when it does not *)

(** X15.  On a ticket whose result is cached, [await_result] returns it
    at once: no poll, no sleep, whatever the transport and the clock
    would do. *)
Theorem await_result_cached net html5 limit clock fuel sleep_time self w r :
  _cached_result self = Some r ->
  await_result net html5 limit clock (S fuel) sleep_time (self, w)
    = Some (Return r, (self, w)).
Proof.
  intros Hc. cbn [await_result].
  rewrite (try_get_result_cached_once _ _ _ _ _ _ Hc). reflexivity.
Qed.

Lemma await_result_cached_witness :
  await_result (stub []) html5_amp default_limit example_clock 1 minus_one_second
               (resolved example_ticket (u "5&6"), [])
    = Some (Return (u "5&6"), (resolved example_ticket (u "5&6"), [])).
Proof.
  apply (await_result_cached (stub []) html5_amp default_limit example_clock 0
           minus_one_second (resolved example_ticket (u "5&6")) [] (u "5&6")).
  reflexivity.
Defined.

Lemma await_result_ticket net html5 limit clock sleep_time fuel :
  forall self w out c w',
    await_result net html5 limit clock fuel sleep_time (self, w)
      = Some (out, (c, w')) ->
    match out with
    | Return r => c = resolved self r
    | Raise _ => c = self
    end.
Proof.
  induction fuel as [|fuel IH]; intros self w out c w' H; [discriminate H|].
  cbn [await_result] in H.
  pose proof (try_get_result_effect net html5 limit self w) as E.
  destruct (try_get_result net html5 limit (self, w)) as [[[x|]|e] [c1 w1]].
  - injection H as <- <- <-. exact E.
  - subst c1. unfold in_world, time_sleep in H. cbn [fst snd] in H.
    destruct (clock sleep_time) as [[]|e].
    + apply (IH _ _ _ _ _ H).
    + injection H as <- <- <-. reflexivity.
  - injection H as <- <- <-. exact E.
Qed.

(** X16.  Whenever [await_result] returns a string, the ticket holds it:
    the string returned is the cached result of the ticket afterwards,
    and nothing else of the ticket has changed.  When it raises, the
    ticket is as it was. *)
Theorem await_result_returns_cached net html5 limit clock sleep_time fuel
    self w out after w' :
  await_result net html5 limit clock fuel sleep_time (self, w)
    = Some (out, (after, w')) ->
  match out with
  | Return r =>
      _cached_result after = Some r /\ after = resolved self r
  | Raise _ => after = self
  end.
Proof.
  intros H. pose proof (await_result_ticket _ _ _ _ _ _ _ _ _ _ _ H) as E.
  destruct out as [r|e]; [|exact E]. subst after. split; reflexivity.
Qed.

Lemma await_result_returns_cached_witness :
  await_result (stub [body "CAPCHA_NOT_READY"; body "OK|secret"]) html5_amp default_limit
               example_clock 5 default_sleep_time (example_ticket, [])
    = Some (Return (u "secret"),
            (resolved example_ticket (u "secret"),
             [Net (poll_request example_ticket); Sleep default_sleep_time;
              Net (poll_request example_ticket)]))
  /\ _cached_result (resolved example_ticket (u "secret")) = Some (u "secret").
Proof.
  split; [reflexivity|].
  apply (await_result_returns_cached
           (stub [body "CAPCHA_NOT_READY"; body "OK|secret"]) html5_amp default_limit
           example_clock default_sleep_time 5 example_ticket []
           (Return (u "secret")) (resolved example_ticket (u "secret"))
           [Net (poll_request example_ticket); Sleep default_sleep_time;
            Net (poll_request example_ticket)]).
  reflexivity.
Defined.

(** X17.  The loop has no cap on its attempts: against a server that
    answers "not ready" to every poll, with a [sleep_time] the clock
    accepts, [await_result] is still running after any number of
    iterations. *)
Theorem await_result_never_gives_up net html5 limit clock self w sleep_time fuel :
  _cached_result self = None ->
  clock sleep_time = Return tt ->
  (forall k, exists b, b ∈ not_ready
     /\ net (w ++ rounds (poll_request self) sleep_time k) (poll_request self)
        = Return {| text := b |}) ->
  await_result net html5 limit clock fuel sleep_time (self, w) = None.
Proof.
  intros Hc Hs Hr.
  replace fuel with (fuel + 0)%nat by lia.
  rewrite (await_result_rounds net html5 limit clock self sleep_time fuel w 0 Hc Hs).
  - reflexivity.
  - intros k _. apply Hr.
Qed.

Lemma await_result_never_gives_up_witness :
  await_result always_not_ready html5_amp default_limit example_clock 25 default_sleep_time
               (example_ticket, [])
    = None.
Proof.
  apply (await_result_never_gives_up always_not_ready html5_amp default_limit example_clock
           example_ticket [] default_sleep_time 25).
  - reflexivity.
  - reflexivity.
  - intros k. exists (u "CAPCHA_NOT_READY").
    split; [vm_compute; left|]; reflexivity.
Defined.

(** X18.  [time.sleep] is not guarded: when the clock refuses
    [sleep_time], a negative one for instance, and the first poll finds
    the result not ready, [await_result] raises the exception of the
    clock after that one poll, without having slept. *)
Theorem await_result_clock_refuses net html5 limit clock self w sleep_time fuel b e :
  _cached_result self = None ->
  clock sleep_time = Raise e ->
  b ∈ not_ready ->
  net w (poll_request self) = Return {| text := b |} ->
  await_result net html5 limit clock (S fuel) sleep_time (self, w)
    = Some (Raise e, (self, w ++ [Net (poll_request self)]))
  /\ sleeps (w ++ [Net (poll_request self)]) = sleeps w.
Proof.
  intros Hc Hs Hb Hn. split.
  - apply (await_result_sleep_refused _ _ _ _ _ _ _ _ _ _ Hc Hs Hb Hn).
  - rewrite sleeps_app.
    change (sleeps [Net (poll_request self)]) with 0%nat. lia.
Qed.

Lemma await_result_clock_refuses_witness :
  await_result (stub [body "CAPTCHA_NOT_READY"; body "OK|secret"]) html5_amp default_limit
               example_clock 9 minus_one_second (example_ticket, [])
    = Some (Raise (ValueError (Literal (u "sleep length must be non-negative"))),
            (example_ticket, [Net (poll_request example_ticket)])).
Proof.
  apply (await_result_clock_refuses
           (stub [body "CAPTCHA_NOT_READY"; body "OK|secret"]) html5_amp default_limit
           example_clock example_ticket [] minus_one_second 8
           (u "CAPTCHA_NOT_READY")); try reflexivity.
  vm_compute. right. left.
Defined.

(** ** Reporting and the life of a ticket *)

(** X19.  A ticket without result cannot be reported: [report_bad]
    raises the builtin [ValueError], which is none of the exceptions of
    the module, and sends nothing.  So it is for the ticket [solve] has
    just returned. *)
Theorem report_bad_needs_result net self w :
  _cached_result self = None ->
  report_bad net (self, w)
    = (Raise (ValueError (Literal (u
         "tried reporting bad state for captcha not yet retrieved"))),
       (self, w))
  /\ (forall api id, report_bad net (Captcha_init api id, w)
        = (Raise (ValueError (Literal (u
             "tried reporting bad state for captcha not yet retrieved"))),
           (Captcha_init api id, w))).
Proof.
  intros Hc. split.
  - apply (report_bad_before_result _ _ _ Hc).
  - intros a id. apply report_bad_before_result. reflexivity.
Qed.

Lemma report_bad_needs_result_witness :
  report_bad (stub [body "OK_REPORT_RECORDED"]) (example_ticket, [])
    = (Raise (ValueError (Literal (u
         "tried reporting bad state for captcha not yet retrieved"))),
       (example_ticket, [])).
Proof.
  apply (report_bad_needs_result (stub [body "OK_REPORT_RECORDED"])
           example_ticket []). reflexivity.
Defined.

(** X20.  Submitting, waiting and reporting compose.  The ticket of
    [solve] polls with the id the server gave; [await_result] on it
    returns the answer of the first poll that has one; the ticket is
    then resolved and [report_bad] sends its report under the same id.
    Three requests in all. *)
Theorem solve_await_report net open_rb_read imghdr_what html5 limit clock
    self file params w raw_data ext id p r fuel sleep_time :
  file_contents open_rb_read file = Return raw_data ->
  imghdr_what raw_data = Some ext ->
  contains (ch "|") id = false ->
  contains (ch "|") p = false -> contains (ch "|") r = false ->
  contains (ch "&") p = false -> contains (ch "&") r = false ->
  let ticket := Captcha_init self id in
  let submit := submit_request self (form_data params) ext raw_data in
  let w1 := w ++ [Net submit] in
  let w2 := w1 ++ [Net (poll_request ticket)] in
  net w submit = Return {| text := u "OK|" ++ id |} ->
  net w1 (poll_request ticket) = Return {| text := p ++ ch "|" :: r |} ->
  net w2 (report_request ticket) = body "OK_REPORT_RECORDED" ->
  solve net open_rb_read imghdr_what self file params w = (Return ticket, w1)
  /\ rq_data (poll_request ticket) !! u "id" = Some id
  /\ await_result net html5 limit clock (S fuel) sleep_time (ticket, w1)
     = Some (Return r, (resolved ticket r, w2))
  /\ report_bad net (resolved ticket r, w2)
     = (Return tt, (resolved ticket r, w2 ++ [Net (report_request ticket)])).
Proof.
  intros Hf Hi Hid Hp Hr Ap Ar ticket submit w1 w2 H1 H2 H3.
  split; [|split; [|split]].
  - rewrite (surjective_pairing (solve _ _ _ _ _ _ _)).
    rewrite (solve_trace _ _ _ _ _ _ _ _ _ Hf Hi).
    rewrite (solve_answered _ _ _ _ _ _ _ _ _ _ Hf Hi H1). cbn [text].
    change (u "OK|" ++ id) with (u "OK" ++ ch "|" :: id).
    rewrite contains_app. cbn [contains existsb]. rewrite N.eqb_refl.
    rewrite orb_true_r.
    fold (contains (ch "|") id).
    rewrite (split_one_sep (ch "|") (u "OK") id eq_refl Hid). reflexivity.
  - unfold poll_request, ticket. cbn [rq_data captcha_id Captcha_init].
    rewrite lookup_insert_ne by discriminate. apply lookup_insert_eq.
  - cbn [await_result].
    rewrite (try_get_result_plain net html5 limit ticket w1 p r eq_refl
               Hp Hr Ap Ar H2). reflexivity.
  - rewrite (report_bad_answered net (resolved ticket r) w2 r _
               eq_refl eq_refl H3). reflexivity.
Qed.

Lemma solve_await_report_witness :
  let net := stub [body "OK|12345"; body "OK|abc"; body "OK_REPORT_RECORDED"] in
  let submit := submit_request example_api (form_data None) (u "png") [] in
  solve net no_files png_only example_api (FileObject (Return [])) None []
    = (Return example_ticket, [Net submit])
  /\ rq_data (poll_request example_ticket) !! u "id" = Some (u "12345")
  /\ await_result net html5_amp default_limit example_clock 1 default_sleep_time
                  (example_ticket, [Net submit])
     = Some (Return (u "abc"),
             (resolved example_ticket (u "abc"),
              [Net submit; Net (poll_request example_ticket)]))
  /\ report_bad net (resolved example_ticket (u "abc"),
                     [Net submit; Net (poll_request example_ticket)])
     = (Return tt,
        (resolved example_ticket (u "abc"),
         [Net submit; Net (poll_request example_ticket);
          Net (report_request example_ticket)])).
Proof.
  apply (solve_await_report
           (stub [body "OK|12345"; body "OK|abc"; body "OK_REPORT_RECORDED"])
           no_files png_only html5_amp default_limit example_clock example_api
           (FileObject (Return [])) None [] [] (u "png") (u "12345")
           (u "OK") (u "abc") 0 default_sleep_time); reflexivity.
Defined.

(** ** The credential *)

Lemma carries_key_snoc key w rq :
  Forall (carries_key key) w ->
  rq_data rq !! u "key" = Some key ->
  Forall (carries_key key) (w ++ [Net rq]).
Proof.
  intros Hw Hk. apply Forall_app. split; [exact Hw|].
  constructor; [exact Hk | constructor].
Qed.

Lemma carries_key_sleep key w t :
  Forall (carries_key key) w -> Forall (carries_key key) (w ++ [Sleep t]).
Proof.
  intros Hw. apply Forall_app. split; [exact Hw|].
  constructor; [exact I | constructor].
Qed.

Lemma get_stats_trace_any net self date w :
  snd (get_stats net self date w) = w
  \/ exists d, snd (get_stats net self date w) = w ++ [Net (stats_request self d)].
Proof.
  destruct date as [d|[d|e]].
  - right. exists d. apply get_stats_trace.
  - right. exists d. apply get_stats_trace.
  - left. run_method. destruct (isinstance e _); reflexivity.
Qed.

Lemma await_result_keys net html5 limit clock sleep_time fuel :
  forall self w out c w',
    Forall (carries_key (api_key (api self))) w ->
    await_result net html5 limit clock fuel sleep_time (self, w)
      = Some (out, (c, w')) ->
    Forall (carries_key (api_key (api self))) w'.
Proof.
  induction fuel as [|fuel IH]; intros self w out c w' Hw H; [discriminate H|].
  cbn [await_result] in H.
  pose proof (try_get_result_effect net html5 limit self w) as E.
  pose proof (try_get_result_trace net html5 limit self w) as T.
  assert (Hw1 : Forall (carries_key (api_key (api self)))
                  (snd (snd (try_get_result net html5 limit (self, w))))).
  { rewrite T. destruct (_cached_result self); [exact Hw|].
    apply carries_key_snoc; [exact Hw | apply lookup_insert_eq]. }
  destruct (try_get_result net html5 limit (self, w)) as [[[x|]|e] [c1 w1]];
    cbn [fst snd] in Hw1.
  - injection H as <- <- <-. exact Hw1.
  - subst c1. unfold in_world, time_sleep in H. cbn [fst snd] in H.
    destruct (clock sleep_time) as [[]|e].
    + apply (IH self _ _ _ _ (carries_key_sleep _ _ _ Hw1) H).
    + injection H as <- <- <-. exact Hw1.
  - injection H as <- <- <-. exact Hw1.
Qed.

(** X21.  Every request carries the key of the client.  If all requests
    sent so far carry it, so do all requests after any operation of the
    client or of one of its tickets, however long [await_result] polls;
    a [key] among the parameters given to [solve] is overwritten. *)
Theorem requests_carry_the_key net usp udec open_rb_read imghdr_what html5 limit
    clock self ticket file params date w :
  api ticket = self ->
  Forall (carries_key (api_key self)) w ->
  Forall (carries_key (api_key self)) (snd (get_balance net usp udec self w))
  /\ Forall (carries_key (api_key self)) (snd (get_stats net self date w))
  /\ Forall (carries_key (api_key self)) (snd (get_load net self w))
  /\ Forall (carries_key (api_key self))
       (snd (solve net open_rb_read imghdr_what self file params w))
  /\ Forall (carries_key (api_key self))
       (snd (snd (try_get_result net html5 limit (ticket, w))))
  /\ Forall (carries_key (api_key self)) (snd (snd (report_bad net (ticket, w))))
  /\ (forall fuel sleep_time out s',
        await_result net html5 limit clock fuel sleep_time (ticket, w)
          = Some (out, s') ->
        Forall (carries_key (api_key self)) (snd s')).
Proof.
  intros Ha Hw. subst self.
  split; [|split; [|split; [|split; [|split; [|split]]]]].
  - rewrite get_balance_trace.
    apply carries_key_snoc; [exact Hw | apply lookup_insert_eq].
  - destruct (get_stats_trace_any net (api ticket) date w) as [-> | [d ->]];
      [exact Hw|].
    apply carries_key_snoc; [exact Hw | apply lookup_insert_eq].
  - rewrite get_load_trace.
    apply carries_key_snoc; [exact Hw | apply lookup_insert_eq].
  - destruct (solve_trace_cases net open_rb_read imghdr_what (api ticket)
                file params w) as [-> | (raw & ext & ->)]; [exact Hw|].
    apply carries_key_snoc; [exact Hw | apply lookup_insert_eq].
  - rewrite try_get_result_trace. destruct (_cached_result ticket); [exact Hw|].
    apply carries_key_snoc; [exact Hw | apply lookup_insert_eq].
  - rewrite report_bad_trace. destruct (_cached_result ticket); [|exact Hw].
    destruct (_reported_bad ticket); [exact Hw|].
    apply carries_key_snoc; [exact Hw | apply lookup_insert_eq].
  - intros fuel sleep_time out [c w'] H. cbn [snd].
    apply (await_result_keys _ _ _ _ _ _ _ _ _ _ _ Hw H).
Qed.

Lemma requests_carry_the_key_witness :
  Forall (carries_key (u "secret-key"))
    (snd (solve (stub [body "OK|12345"]) no_files png_only example_api
                (FileObject (Return []))
                (Some {[ u "key" := u "another" ]}) [])).
Proof.
  apply (requests_carry_the_key (stub [body "OK|12345"]) no_unicode_space
           no_unicode_decimal no_files png_only html5_amp default_limit example_clock
           example_api example_ticket (FileObject (Return []))
           (Some {[ u "key" := u "another" ]}) (DateStr []) []);
    [reflexivity | constructor].
Defined.
